(** * A shallow embedding of the RAG book backend

    The development follows the Python sources of the backend:
    - [app/services/rag_service.py]   (module [Rag])
    - [app/services/agent_service.py] (module [Agent])
    - [app/api/routes/chat.py]        (module [Chat])
    - [app/api/routes/admin.py]       (module [Admin])
    - [scripts/index_book.py]         (module [Script])

    Python values are modelled as follows.  A [str] is a [string] (a
    sequence of code points below 256), an [int] is a [Z], a [float] is a
    binary64 [float], a [list] is a [list], and a raised exception is the
    [Raise] branch of [result].  The external services (the embedding and
    chat providers, the clock, the similarity search of the vector
    database) are the fields of an [Env] record of oracles; the mutable
    state of the process (the collections of the vector database, the
    standard output, the number of external calls made so far) is a
    [World] threaded through a state-and-exception monad. *)

From Stdlib Require Import ZArith List String Ascii Floats Lia.
From stdpp Require Import base option list gmap strings pretty.

Open Scope Z_scope.

(** ** Python exceptions and results *)

(** The exceptions that the modelled code can meet.  Every one of them is
    a subclass of Python's [Exception], so an [except Exception] clause
    catches each constructor. *)
Inductive exn : Type :=
  | ValueError (msg : string)
  | OSError (msg : string)
  | ServiceError (msg : string)
  | HTTPException (status_code : Z) (detail : string).

(** [type(e).__name__] *)
Definition exn_class (e : exn) : string :=
  match e with
  | ValueError _ => "ValueError"
  | OSError _ => "OSError"
  | ServiceError _ => "ServiceError"
  | HTTPException _ _ => "HTTPException"
  end.

(** [str(e)]; for an [HTTPException] this is Starlette's
    ["{status_code}: {detail}"]. *)
Definition exn_str (e : exn) : string :=
  match e with
  | ValueError m | OSError m | ServiceError m => m
  | HTTPException c d => pretty c +:+ ": " +:+ d
  end.

Inductive result (A : Type) : Type :=
  | Ok (a : A)
  | Raise (e : exn).
Arguments Ok {A} a.
Arguments Raise {A} e.

#[global] Instance result_ret : MRet result := fun A a => Ok a.
#[global] Instance result_bind : MBind result := fun A B f m =>
  match m with
  | Ok a => f a
  | Raise e => Raise e
  end.
#[global] Instance result_fmap : FMap result := fun A B f m =>
  match m with
  | Ok a => Ok (f a)
  | Raise e => Raise e
  end.

(** ** The Python primitives used by the backend *)

Module Py.

(** [len(l)] and [len(s)] as Python integers. *)
Definition len {A} (l : list A) : Z := Z.of_nat (length l).
Definition slen (s : string) : Z := Z.of_nat (String.length s).

(** [c.isspace()] for a code point below 256: TAB, LF, VT, FF, CR, the
    separators FS, GS, RS, US, the space, NEL and the no-break space. *)
Definition isspace (c : ascii) : bool :=
  let n := N_of_ascii c in
  ((9 <=? n) && (n <=? 13) || (28 <=? n) && (n <=? 32)
   || (n =? 133) || (n =? 160))%N.

(** [s.split()]: the maximal runs of characters that are not whitespace.
    [cur] is the run being read. *)
Fixpoint split_go (cur : string) (s : string) : list string :=
  match s with
  | EmptyString => if decide (cur = "") then [] else [cur]
  | String c s' =>
      if isspace c
      then (if decide (cur = "") then split_go "" s' else cur :: split_go "" s')
      else split_go (cur +:+ String c "") s'
  end.

Definition split (s : string) : list string := split_go "" s.

(** [sep.join(l)] *)
Definition join (sep : string) (l : list string) : string := String.concat sep l.

(** [s.lstrip()], [s.rstrip()] and [s.strip()] *)
Fixpoint lstrip (s : string) : string :=
  match s with
  | EmptyString => ""
  | String c s' => if isspace c then lstrip s' else s
  end.

Fixpoint rstrip (s : string) : string :=
  match s with
  | EmptyString => ""
  | String c s' =>
      match rstrip s' with
      | EmptyString => if isspace c then "" else String c ""
      | r => String c r
      end
  end.

Definition strip (s : string) : string := rstrip (lstrip s).

(** The bound of a slice brought into [0 .. n], as [PySlice_AdjustIndices]
    does for a step of 1: a negative bound counts from the end. *)
Definition adjust_index (n i : Z) : Z :=
  if i <? 0 then Z.max 0 (i + n) else Z.min i n.

(** [l[lo:hi]] *)
Definition slice {A} (l : list A) (lo hi : Z) : list A :=
  let a := adjust_index (len l) lo in
  let b := adjust_index (len l) hi in
  take (Z.to_nat (b - a)) (drop (Z.to_nat a) l).

(** [range(start, stop, step)], listed.  A zero step raises; the number of
    elements is the one CPython computes. *)
Definition range (start stop step : Z) : result (list Z) :=
  if step =? 0 then Raise (ValueError "range() arg 3 must not be zero")
  else
    let n :=
      if 0 <? step
      then (if start <? stop then (stop - start - 1) / step + 1 else 0)
      else (if stop <? start then (start - stop - 1) / (- step) + 1 else 0) in
    Ok ((fun k => start + Z.of_nat k * step) <$> seq 0 (Z.to_nat n)).

(** [s.lower()] and [s.title()]; the case mapping is the one of the ASCII
    letters, every other code point is left as it is. *)
Definition isupper (c : ascii) : bool :=
  let n := N_of_ascii c in ((65 <=? n) && (n <=? 90))%N.
Definition islower (c : ascii) : bool :=
  let n := N_of_ascii c in ((97 <=? n) && (n <=? 122))%N.
Definition to_lower (c : ascii) : ascii :=
  if isupper c then ascii_of_N (N_of_ascii c + 32) else c.
Definition to_upper (c : ascii) : ascii :=
  if islower c then ascii_of_N (N_of_ascii c - 32) else c.

Fixpoint lower (s : string) : string :=
  match s with
  | EmptyString => ""
  | String c s' => String (to_lower c) (lower s')
  end.

Fixpoint title_go (previous_is_cased : bool) (s : string) : string :=
  match s with
  | EmptyString => ""
  | String c s' =>
      if isupper c || islower c
      then String (if previous_is_cased then to_lower c else to_upper c) (title_go true s')
      else String c (title_go false s')
  end.

Definition title (s : string) : string := title_go false s.

(** [sub in s] *)
Fixpoint contains (sub s : string) : bool :=
  String.prefix sub s ||
  match s with
  | EmptyString => false
  | String _ s' => contains sub s'
  end.

(** [s.replace(old, new)]: the occurrences of [old] are replaced from the
    left, without overlap; [skip] counts the characters of an occurrence
    still to be dropped.  With an empty [old], [new] is put before every
    character and at the end. *)
Fixpoint replace_go (old new : string) (skip : nat) (s : string) : string :=
  match s with
  | EmptyString => ""
  | String c s' =>
      match skip with
      | S k => replace_go old new k s'
      | O =>
          if String.prefix old s
          then new +:+ replace_go old new (Nat.pred (String.length old)) s'
          else String c (replace_go old new O s')
      end
  end.

Fixpoint intersperse (new : string) (s : string) : string :=
  match s with
  | EmptyString => new
  | String c s' => new +:+ String c (intersperse new s')
  end.

Definition replace (old new s : string) : string :=
  if decide (old = "") then intersperse new s else replace_go old new O s.

(** The line feed of the f-strings. *)
Definition nl : string := String (ascii_of_nat 10) "".

(** [float(n)] for an integer below [2^63]. *)
Definition float_of_int (n : Z) : float := PrimFloat.of_uint63 (Uint63.of_Z n).

(** The float that Python reads for the literal [1.3]. *)
Definition float_1_3 : float := 0x1.4cccccccccccdp+0%float.

(** A generator, once started: the values it yields, until it returns or
    raises. *)
Inductive gen (A : Type) : Type :=
  | GReturn
  | GYield (a : A) (rest : gen A)
  | GRaise (e : exn).
Arguments GReturn {A}.
Arguments GYield {A} a rest.
Arguments GRaise {A} e.

End Py.

(** ** The vector database, the providers and the state of the process *)

(** The payload that [index_document] stores with a point.  A payload
    read back may lack the key [chunk_index], which [search_similar]
    reads with [get("chunk_index", 0)]. *)
Record Payload : Type := {
  p_text : string;
  p_doc_id : string;
  p_title : string;
  p_url : string;
  p_chapter : string;
  p_chunk_index : option Z;
  p_indexed_at : string
}.

Record PointStruct : Type := {
  pt_id : string;
  pt_vector : list float;
  pt_payload : Payload
}.

(** An entry of the answer of the similarity search. *)
Record ScoredPoint : Type := {
  sp_id : string;
  sp_score : float;
  sp_payload : Payload
}.

(** The dictionaries passed around as context chunks: the results of
    [search_similar], and the selected text of [chat_with_selected_text],
    which has no key [chunk_index]. *)
Record ContextChunk : Type := {
  c_text : string;
  c_title : string;
  c_url : string;
  c_chapter : string;
  c_score : float;
  c_chunk_index : option Z
}.

(** [AgentService.__init__]: the settings read from the environment. *)
Record AgentService : Type := {
  model : string;
  temperature : float;
  max_tokens : Z;
  system_prompt : string
}.

(** A Markdown file found by [rglob("*.md")], with the attributes of its
    [Path] that the indexers read and the outcome of reading it. *)
Record MdFile : Type := {
  path : string;
  parts : list string;
  name : string;
  stem : string;
  relative : string;
  read : result string
}.

(** What the processes print, one constructor for each [print] of the
    sources that formats a value, [Text] for the constant lines. *)
Inductive line : Type :=
  | Text (s : string)
  | CreatedCollection (collection : string)
  | ErrorIndexing (md_file : string) (e : string)
  | ServiceInitialized
  | EmbeddingModel (embedding_model : string)
  | Collection (collection : string)
  | PathNotFound (docs_path : string)
  | Found (files : Z)
  | Processing (file : string)
  | Skipped
  | Indexed (chunks : Z)
  | Error (e : string)
  | FilesIndexed (indexed_files files : Z)
  | TotalChunks (total_chunks : Z)
  | Vectors (vectors_count : Z)
  | Points (points_count : Z)
  | Ready.

(** The state: the collections of the vector database (each a map from
    point id to point), the lines printed so far, and the number of calls
    made to the outside so far. *)
Record World : Type := {
  qdrant : gmap string (gmap string PointStruct);
  stdout : list line;
  calls : nat
}.

(** The outside, as oracles.  The first argument of an oracle is the
    number of calls made before it, so the same request may be answered
    differently at different times. *)
Record Env : Type := {
  embeddings_create : nat -> string -> string -> result (list float);
  utcnow_isoformat : nat -> string;
  qdrant_search :
    nat -> gmap string PointStruct -> list float -> Z -> float -> option string ->
    result (list ScoredPoint);
  chat_completions_create :
    nat -> AgentService -> string -> string -> result string;
  chat_completions_stream :
    nat -> AgentService -> string -> string -> result (Py.gen (option string));
  format_2f : float -> string;
  rglob_md : string -> option (list MdFile)
}.

(** Computations that read and change the [World] and may raise; what was
    changed before an exception stays changed. *)
Definition M (A : Type) : Type := World -> result A * World.

#[global] Instance M_ret : MRet M := fun A a w => (Ok a, w).
#[global] Instance M_bind : MBind M := fun A B f m w =>
  match m w with
  | (Ok a, w') => f a w'
  | (Raise e, w') => (Raise e, w')
  end.

Definition raise {A} (e : exn) : M A := fun w => (Raise e, w).
Definition lift {A} (r : result A) : M A := fun w => (r, w).

(** [try: body  except Exception as e: handler e] *)
Definition try_except {A} (body : M A) (handler : exn -> M A) : M A := fun w =>
  match body w with
  | (Ok a, w') => (Ok a, w')
  | (Raise e, w') => handler e w'
  end.

Definition print (l : line) : M unit := fun w =>
  (Ok tt, {| qdrant := qdrant w; stdout := stdout w ++ [l]; calls := calls w |}).

(** The time of a call to the outside. *)
Definition tick : M nat := fun w =>
  (Ok (calls w), {| qdrant := qdrant w; stdout := stdout w; calls := S (calls w) |}).

Definition utcnow (env : Env) : M string :=
  t ← tick; mret (utcnow_isoformat env t).

(** *** The client of the vector database *)

Module Qdrant.

Definition get_collection (collection_name : string) : M (gmap string PointStruct) := fun w =>
  match qdrant w !! collection_name with
  | Some c => (Ok c, w)
  | None => (Raise (ValueError ("Collection " +:+ collection_name +:+ " not found")), w)
  end.

Definition put_collection (collection_name : string) (c : gmap string PointStruct) : M unit :=
  fun w =>
    (Ok tt, {| qdrant := <[collection_name := c]> (qdrant w);
               stdout := stdout w; calls := calls w |}).

Definition create_collection (collection_name : string) : M unit :=
  put_collection collection_name ∅.

(** Modelled from the spec: the storage engine behind [upsert] is not part
    of the repository; [upsert] is insert-or-replace keyed by the id of
    each point. *)
Definition upsert (collection_name : string) (points : list PointStruct) : M unit :=
  c ← get_collection collection_name;
  put_collection collection_name (foldl (fun c p => <[pt_id p := p]> c) c points).

(** The similarity search is answered by the oracle, from the points of
    the collection. *)
Definition search (env : Env) (collection_name : string) (query_vector : list float)
    (limit : Z) (score_threshold : float) (query_filter : option string)
    : M (list ScoredPoint) :=
  c ← get_collection collection_name;
  t ← tick;
  lift (qdrant_search env t c query_vector limit score_threshold query_filter).


End Qdrant.

(** ** [app/services/rag_service.py] *)

Module Rag.

Definition collection_name : string := "book_chunks".
Definition embedding_model : string := "text-embedding-3-small".

(** [RAGService.ensure_collection_exists] *)
Definition ensure_collection_exists : M unit :=
  try_except
    (_ ← Qdrant.get_collection collection_name; mret tt)
    (fun _ =>
       _ ← Qdrant.create_collection collection_name;
       print (CreatedCollection collection_name)).

(** [RAGService.create_embedding] *)
Definition create_embedding (env : Env) (text : string) : M (list float) :=
  t ← tick;
  lift (embeddings_create env t embedding_model text).

(** [RAGService.chunk_text]: the [for] loop over the range appends to
    [chunks]; the accumulator of the fold is that list. *)
Definition chunk_text (text : string) (chunk_size overlap : Z) : result (list string) :=
  let words := Py.split text in
  idx ← Py.range 0 (Py.len words) (chunk_size - overlap);
  Ok (foldl (fun chunks i =>
               let chunk := Py.join " " (Py.slice words i (i + chunk_size)) in
               if 0 <? Py.slen (Py.strip chunk) then chunks ++ [chunk] else chunks)
            [] idx).

(** The defaults of the parameters of [chunk_text]. *)
Definition default_chunk_size : Z := 500.
Definition default_overlap : Z := 100.

(** [f"{doc_id}_chunk_{i}"] *)
Definition chunk_id (doc_id : string) (i : Z) : string :=
  doc_id +:+ "_chunk_" +:+ pretty i.

(** The loop of [index_document] over [enumerate(chunks)], from index [i]
    on; [points] is the list built so far. *)
Fixpoint index_points (env : Env) (doc_id title url : string) (chapter : option string)
    (i : Z) (chunks : list string) (points : list PointStruct) : M (list PointStruct) :=
  match chunks with
  | [] => mret points
  | chunk :: rest =>
      embedding ← create_embedding env chunk;
      now ← utcnow env;
      let point :=
        {| pt_id := chunk_id doc_id i;
           pt_vector := embedding;
           pt_payload :=
             {| p_text := chunk;
                p_doc_id := doc_id;
                p_title := title;
                p_url := url;
                p_chapter :=
                  match chapter with
                  | Some c => if decide (c = "") then "Main" else c
                  | None => "Main"
                  end;
                p_chunk_index := Some i;
                p_indexed_at := now |} |} in
      index_points env doc_id title url chapter (i + 1) rest (points ++ [point])
  end.

(** [RAGService.index_document] *)
Definition index_document (env : Env) (doc_id title content url : string)
    (chapter : option string) : M Z :=
  _ ← ensure_collection_exists;
  chunks ← lift (chunk_text content default_chunk_size default_overlap);
  points ← index_points env doc_id title url chapter 0 chunks [];
  _ ← Qdrant.upsert collection_name points;
  mret (Py.len chunks).

(** The dictionary that [search_similar] makes of a result. *)
Definition format_result (r : ScoredPoint) : ContextChunk :=
  {| c_text := p_text (sp_payload r);
     c_title := p_title (sp_payload r);
     c_url := p_url (sp_payload r);
     c_chapter := p_chapter (sp_payload r);
     c_score := sp_score r;
     c_chunk_index := Some (default 0 (p_chunk_index (sp_payload r))) |}.

(** [RAGService.search_similar]; an empty [chapter_filter] is falsy and
    gives no filter. *)
Definition search_similar (env : Env) (query : string) (limit : Z)
    (score_threshold : float) (chapter_filter : option string) : M (list ContextChunk) :=
  _ ← ensure_collection_exists;
  query_embedding ← create_embedding env query;
  let search_filter :=
    match chapter_filter with
    | Some c => if decide (c = "") then None else Some c
    | None => None
    end in
  results ← Qdrant.search env collection_name query_embedding limit score_threshold
              search_filter;
  mret (foldl (fun formatted_results r => formatted_results ++ [format_result r]) [] results).

(** The defaults of the parameters of [search_similar]. *)
Definition default_limit : Z := 5.
Definition default_score_threshold : float := 0.5%float.

(** [RAGService.get_collection_stats]: the counts of the collection (one
    vector for each point), or the dictionary with the key [error]. *)
Inductive Stats : Type :=
  | CollectionInfo (vectors_count indexed_vectors_count points_count : Z)
  | StatsError (error : string) (vectors_count : Z).

Definition get_collection_stats : M Stats :=
  try_except
    (c ← Qdrant.get_collection collection_name;
     mret (CollectionInfo (Z.of_nat (size c)) (Z.of_nat (size c)) (Z.of_nat (size c))))
    (fun e => mret (StatsError (exn_str e) 0)).

End Rag.

(** ** [app/services/agent_service.py] *)

Module Agent.

(** An entry of the list [sources] of [generate_response_with_metadata]. *)
Record SourceEntry : Type := {
  s_title : string;
  s_url : string;
  s_chapter : string;
  s_relevance_score : float
}.

Record Metadata : Type := {
  m_model : string;
  m_temperature : float;
  m_prompt_tokens : float;
  m_completion_tokens : float;
  m_total_tokens : float;
  m_timestamp : string
}.

Record ResponseWithMetadata : Type := {
  r_answer : string;
  r_sources : list SourceEntry;
  r_metadata : Metadata
}.

(** The block of the prompt for the chunk of index [i]. *)
Definition context_part (env : Env) (i : Z) (chunk : ContextChunk) : string :=
  "--- Context " +:+ pretty (i + 1) +:+ " ---" +:+ Py.nl +:+
  "**Title**: " +:+ c_title chunk +:+ " (" +:+ c_chapter chunk +:+ ")" +:+ Py.nl +:+
  "**URL**: " +:+ c_url chunk +:+ Py.nl +:+
  "**Relevance**: " +:+ format_2f env (c_score chunk) +:+ Py.nl +:+
  Py.nl +:+
  c_text chunk +:+ Py.nl.

(** The loop of [create_rag_prompt] over [enumerate(context_chunks)]. *)
Fixpoint context_parts (env : Env) (i : Z) (context_chunks : list ContextChunk)
    : list string :=
  match context_chunks with
  | [] => []
  | chunk :: rest => context_part env i chunk :: context_parts env (i + 1) rest
  end.

(** [AgentService.create_rag_prompt] *)
Definition create_rag_prompt (env : Env) (question : string)
    (context_chunks : list ContextChunk) : string :=
  let context_text := Py.join (Py.nl +:+ Py.nl) (context_parts env 0 context_chunks) in
  "Based on the following context from the book, please answer the question."
  +:+ Py.nl +:+ Py.nl +:+
  "Context:" +:+ Py.nl +:+
  context_text +:+ Py.nl +:+ Py.nl +:+
  "Question: " +:+ question +:+ Py.nl +:+ Py.nl +:+
  "Please provide a comprehensive answer based on the context above. Include citations to the source sections.".

(** [AgentService._stream_response]: the deltas with a content that is
    neither [None] nor empty. *)
Fixpoint _stream_response (response : Py.gen (option string)) : Py.gen string :=
  match response with
  | Py.GReturn => Py.GReturn
  | Py.GYield (Some content) rest =>
      if decide (content = "") then _stream_response rest
      else Py.GYield content (_stream_response rest)
  | Py.GYield None rest => _stream_response rest
  | Py.GRaise e => Py.GRaise e
  end.

(** [AgentService.generate_response] with [stream=False] *)
Definition generate_response (self : AgentService) (env : Env) (question : string)
    (context_chunks : list ContextChunk) : M string :=
  let user_prompt := create_rag_prompt env question context_chunks in
  t ← tick;
  lift (chat_completions_create env t self (system_prompt self) user_prompt).

(** [AgentService.generate_response] with [stream=True] *)
Definition generate_response_stream (self : AgentService) (env : Env) (question : string)
    (context_chunks : list ContextChunk) : M (Py.gen string) :=
  let user_prompt := create_rag_prompt env question context_chunks in
  t ← tick;
  response ← lift (chat_completions_stream env t self (system_prompt self) user_prompt);
  mret (_stream_response response).

(** The sum of the word counts of the texts of the chunks. *)
Definition words_of_chunks (context_chunks : list ContextChunk) : Z :=
  foldl (fun n chunk => n + Py.len (Py.split (c_text chunk))) 0 context_chunks.

(** [AgentService.generate_response_with_metadata] *)
Definition generate_response_with_metadata (self : AgentService) (env : Env)
    (question : string) (context_chunks : list ContextChunk) : M ResponseWithMetadata :=
  answer ← generate_response self env question context_chunks;
  let sources :=
    (fun chunk =>
       {| s_title := c_title chunk;
          s_url := c_url chunk;
          s_chapter := c_chapter chunk;
          s_relevance_score := c_score chunk |}) <$> context_chunks in
  let prompt_tokens := words_of_chunks context_chunks + Py.len (Py.split question) in
  let completion_tokens := Py.len (Py.split answer) in
  now ← utcnow env;
  mret {| r_answer := answer;
          r_sources := sources;
          r_metadata :=
            {| m_model := model self;
               m_temperature := temperature self;
               m_prompt_tokens := PrimFloat.mul (Py.float_of_int prompt_tokens) Py.float_1_3;
               m_completion_tokens :=
                 PrimFloat.mul (Py.float_of_int completion_tokens) Py.float_1_3;
               m_total_tokens :=
                 PrimFloat.mul (Py.float_of_int (prompt_tokens + completion_tokens))
                   Py.float_1_3;
               m_timestamp := now |} |}.

End Agent.

(** ** [app/api/routes/chat.py] *)

Module Chat.

Record ChatRequest : Type := {
  question : string;
  top_k : Z;
  chapter_filter : option string
}.

Record Source : Type := {
  page_title : string;
  page_url : string;
  section : string;
  relevance_score : float
}.

Record ChatResponse : Type := {
  answer : string;
  sources : list Source
}.

(** The events of the streaming endpoint: [StreamToken], [StreamSources],
    [StreamDone], and the dictionary with the single key [error]. *)
Inductive event : Type :=
  | StreamToken (token : string)
  | StreamSources (sources : list Source)
  | StreamDone
  | StreamError (error : string).

Definition source_of_entry (src : Agent.SourceEntry) : Source :=
  {| page_title := Agent.s_title src;
     page_url := Agent.s_url src;
     section := Agent.s_chapter src;
     relevance_score := Agent.s_relevance_score src |}.

Definition source_of_chunk (chunk : ContextChunk) : Source :=
  {| page_title := c_title chunk;
     page_url := c_url chunk;
     section := c_chapter chunk;
     relevance_score := c_score chunk |}.

(** [chat] *)
Definition chat (agent : AgentService) (env : Env) (request : ChatRequest)
    : M ChatResponse :=
  try_except
    (context_chunks ← Rag.search_similar env (question request) (top_k request)
                        Rag.default_score_threshold (chapter_filter request);
     _ ← (if decide (context_chunks = [])
          then raise (HTTPException 404
                 "No relevant content found. The book may not be indexed yet.")
          else mret tt);
     result ← Agent.generate_response_with_metadata agent env (question request)
                context_chunks;
     let sources := source_of_entry <$> Agent.r_sources result in
     mret {| answer := Agent.r_answer result; sources := sources |})
    (fun e =>
       raise (HTTPException 500 ("Error processing request: " +:+ exn_str e))).

(** The loop [for token in stream: yield ...] of [generate]: the events
    yielded, and the exception that ended the stream, if one did. *)
Fixpoint stream_tokens (stream : Py.gen string) : list event * option exn :=
  match stream with
  | Py.GReturn => ([], None)
  | Py.GYield token rest =>
      let (events, e) := stream_tokens rest in (StreamToken token :: events, e)
  | Py.GRaise e => ([], Some e)
  end.

(** [chat_stream.generate], drained: the events it yields.  Every
    exception inside is caught and becomes a last error event. *)
Definition generate (agent : AgentService) (env : Env) (request : ChatRequest)
    : World -> list event * World := fun w =>
  match Rag.search_similar env (question request) (top_k request)
          Rag.default_score_threshold (chapter_filter request) w with
  | (Raise e, w1) => ([StreamError (exn_str e)], w1)
  | (Ok [], w1) => ([StreamError "No relevant content found"], w1)
  | (Ok context_chunks, w1) =>
      match Agent.generate_response_stream agent env (question request) context_chunks w1 with
      | (Raise e, w2) => ([StreamError (exn_str e)], w2)
      | (Ok stream, w2) =>
          match stream_tokens stream with
          | (tokens, Some e) => (tokens ++ [StreamError (exn_str e)], w2)
          | (tokens, None) =>
              let sources := source_of_chunk <$> context_chunks in
              (tokens ++ [StreamSources sources; StreamDone], w2)
          end
      end
  end.

(** The context that [chat_with_selected_text] gives to the agent. *)
Definition selected_context (selected_text page_url : string) : ContextChunk :=
  {| c_text := selected_text;
     c_title := "Selected Text";
     c_url := page_url;
     c_chapter := "User Selection";
     c_score := 1%float;
     c_chunk_index := None |}.

Definition all_context (selected_text page_url : string)
    (context_chunks : list ContextChunk) : list ContextChunk :=
  [selected_context selected_text page_url] ++ context_chunks.

(** [chat_with_selected_text] *)
Definition chat_with_selected_text (agent : AgentService) (env : Env)
    (question selected_text page_url : string) : M ChatResponse :=
  try_except
    (context_chunks ← Rag.search_similar env question 2 Rag.default_score_threshold None;
     result ← Agent.generate_response_with_metadata agent env question
                (all_context selected_text page_url context_chunks);
     let sources := source_of_entry <$> Agent.r_sources result in
     mret {| answer := Agent.r_answer result; sources := sources |})
    (fun e =>
       raise (HTTPException 500 ("Error processing request: " +:+ exn_str e))).

End Chat.

(** ** The metadata that both indexers derive from the path of a file *)

Module Meta.

(** [md_file.stem.replace('-', ' ').title()] *)
Definition title_of (md_file : MdFile) : string :=
  Py.title (Py.replace "-" " " (stem md_file)).

(** [str(md_file.relative_to(docs_path)).replace('\\', '/').replace('.md', '')] *)
Definition url_path_of (md_file : MdFile) : string :=
  Py.replace ".md" "" (Py.replace "\" "/" (relative md_file)).

(** The loop over the parts of the path: the first part that contains
    "chapter", whatever its case, names the chapter. *)
Fixpoint chapter_of_parts (chapter : string) (parts : list string) : string :=
  match parts with
  | [] => chapter
  | part :: rest =>
      if Py.contains "chapter" (Py.lower part)
      then Py.title (Py.replace "-" " " part)
      else chapter_of_parts chapter rest
  end.

Definition chapter_of (md_file : MdFile) : string :=
  chapter_of_parts "Introduction" (parts md_file).

End Meta.

(** ** [app/api/routes/admin.py] *)

Module Admin.

Record ReindexRequest : Type := {
  docs_path : option string;
  background : bool
}.

(** An entry of [indexed_files]. *)
Record IndexedFile : Type := {
  file : string;
  chunks : Z
}.

Record ReindexResponse : Type := {
  status : string;
  message : string;
  indexed_count : Z;
  failed_count : Z;
  details : option (list IndexedFile)
}.

(** The body of the [try] of [perform_indexing] for one file. *)
Definition index_file (env : Env) (md_file : MdFile) : M Z :=
  content ← lift (read md_file);
  let title := Meta.title_of md_file in
  let url_path := Meta.url_path_of md_file in
  let chapter := Meta.chapter_of md_file in
  let doc_id := stem md_file in
  Rag.index_document env doc_id title content ("/" +:+ url_path) (Some chapter).

(** The loop of [perform_indexing] over the files found. *)
Fixpoint perform_indexing_loop (env : Env) (md_files : list MdFile)
    (total_chunks : Z) (indexed_files : list IndexedFile) : M (Z * list IndexedFile) :=
  match md_files with
  | [] => mret (total_chunks, indexed_files)
  | md_file :: rest =>
      done ← try_except
        (chunks_indexed ← index_file env md_file; mret (Some chunks_indexed))
        (fun e => _ ← print (ErrorIndexing (path md_file) (exn_str e)); mret None);
      match done with
      | Some chunks_indexed =>
          perform_indexing_loop env rest (total_chunks + chunks_indexed)
            (indexed_files ++ [{| file := name md_file; chunks := chunks_indexed |}])
      | None => perform_indexing_loop env rest total_chunks indexed_files
      end
  end.

(** [reindex_content.perform_indexing] *)
Definition perform_indexing (env : Env) (md_files : list MdFile)
    : M (Z * list IndexedFile) :=
  perform_indexing_loop env md_files 0 [].

(** [reindex_content]: the response, and the task left to run in the
    background when the request asks for it. *)
Definition reindex_content (env : Env) (request : ReindexRequest)
    : M (ReindexResponse * option (M (Z * list IndexedFile))) :=
  try_except
    (let book_docs_path :=
       match docs_path request with
       | Some p => if decide (p = "") then "../book/docs" else p
       | None => "../book/docs"
       end in
     match rglob_md env book_docs_path with
     | None =>
         raise (HTTPException 404 ("Documentation path not found: " +:+ book_docs_path))
     | Some md_files =>
         if background request
         then mret ({| status := "started";
                       message := "Indexing started in background";
                       indexed_count := 0;
                       failed_count := 0;
                       details := None |},
                    Some (perform_indexing env md_files))
         else
           '(total_chunks, indexed_files) ← perform_indexing env md_files;
           mret ({| status := "completed";
                    message := "Successfully indexed " +:+ pretty (Py.len indexed_files)
                               +:+ " files with " +:+ pretty total_chunks +:+ " chunks";
                    indexed_count := Py.len indexed_files;
                    failed_count := 0;
                    details := Some indexed_files |},
                 None)
     end)
    (fun e =>
       raise (HTTPException 500 ("Error during re-indexing: " +:+ exn_str e))).

(** The dictionary returned by the route [get_collection_stats]. *)
Record StatsResponse : Type := {
  stats_status : string;
  stats_data : Rag.Stats
}.

(** [get_collection_stats], the route *)
Definition get_collection_stats : M StatsResponse :=
  try_except
    (stats ← Rag.get_collection_stats;
     mret {| stats_status := "success"; stats_data := stats |})
    (fun e => raise (HTTPException 500 ("Error fetching stats: " +:+ exn_str e))).



End Admin.

(** ** [scripts/index_book.py] *)

Module Script.

(** The loop of [index_book_content] over the files found. *)
Fixpoint index_loop (env : Env) (md_files : list MdFile)
    (total_chunks indexed_files : Z) : M (Z * Z) :=
  match md_files with
  | [] => mret (total_chunks, indexed_files)
  | md_file :: rest =>
      done ← try_except
        (_ ← print (Processing (name md_file));
         content ← lift (read md_file);
         if Py.slen (Py.strip content) <? 100
         then _ ← print Skipped; mret None
         else
           let title := Meta.title_of md_file in
           let url_path := Meta.url_path_of md_file in
           let chapter := Meta.chapter_of md_file in
           let doc_id := stem md_file in
           chunks_indexed ← Rag.index_document env doc_id title content
                              ("/" +:+ url_path) (Some chapter);
           _ ← print (Indexed chunks_indexed);
           mret (Some chunks_indexed))
        (fun e => _ ← print (Error (exn_str e)); mret None);
      match done with
      | Some chunks_indexed =>
          index_loop env rest (total_chunks + chunks_indexed) (indexed_files + 1)
      | None => index_loop env rest total_chunks indexed_files
      end
  end.



End Script.

(** ** [app/config/settings.py] *)

Module Settings.

(** The defaults of the indexing configuration of [Settings]. *)
Definition chunk_size : Z := 800.
Definition chunk_overlap : Z := 100.

End Settings.

(** ** A small instance

    An outside simple enough to run the model on: the embedding of a text
    is a fixed vector, the clock shows the number of the call, the
    similarity search knows two hits of "Chapter 1", filters them by
    chapter and threshold and truncates them to the limit, and the chat
    provider answers with fixed fragments.  The tree of documents has three
    files, the second of which cannot be decoded. *)

Module Example.

Definition hit (id title : string) (score : float) : ScoredPoint :=
  {| sp_id := id;
     sp_score := score;
     sp_payload :=
       {| p_text := "Text of " +:+ title;
          p_doc_id := id;
          p_title := title;
          p_url := "/" +:+ id;
          p_chapter := "Chapter 1";
          p_chunk_index := Some 0;
          p_indexed_at := "2024-01-01T00:00:00" |} |}.

Definition hits : list ScoredPoint :=
  [hit "intro" "Intro" 0.875%float; hit "overview" "Overview" 0.625%float].

Definition matches (score_threshold : float) (query_filter : option string)
    (r : ScoredPoint) : bool :=
  PrimFloat.leb score_threshold (sp_score r)
  && match query_filter with
     | Some chapter => bool_decide (p_chapter (sp_payload r) = chapter)
     | None => true
     end.

Definition search (t : nat) (c : gmap string PointStruct) (query_vector : list float)
    (limit : Z) (score_threshold : float) (query_filter : option string)
    : result (list ScoredPoint) :=
  if limit <? 0 then Raise (ServiceError "limit must not be negative")
  else Ok (take (Z.to_nat limit)
             (filter (fun r => matches score_threshold query_filter r = true) hits)).

Definition md (dir file_stem : string) (content : result string) : MdFile :=
  {| path := "../book/docs/" +:+ dir +:+ "/" +:+ file_stem +:+ ".md";
     parts := [".."; "book"; "docs"; dir; file_stem +:+ ".md"];
     name := file_stem +:+ ".md";
     stem := file_stem;
     relative := dir +:+ "/" +:+ file_stem +:+ ".md";
     read := content |}.

Definition files : list MdFile :=
  [ md "chapter-1" "what-is-rag" (Ok "Retrieval augmented generation in short");
    md "chapter-1" "broken"
       (Raise (ValueError "'utf-8' codec can't decode byte 0xff in position 0"));
    md "appendix" "glossary" (Ok "RAG: see chapter one") ].

Definition env : Env :=
  {| embeddings_create := fun _ _ _ => Ok [0.5%float; 0.25%float];
     utcnow_isoformat := fun t => "2024-01-01T00:00:" +:+ pretty t;
     qdrant_search := search;
     chat_completions_create := fun _ _ _ _ => Ok "RAG retrieves, then generates.";
     chat_completions_stream := fun _ _ _ _ =>
       Ok (Py.GYield (Some "RAG ") (Py.GYield None (Py.GYield (Some "retrieves") Py.GReturn)));
     format_2f := fun _ => "0.00";
     rglob_md := fun docs_path =>
       if decide (docs_path = "../book/docs") then Some files else None |}.

Definition agent : AgentService :=
  {| model := "gpt-4o-mini";
     temperature := 0.25%float;
     max_tokens := 2000;
     system_prompt := "You are a helpful Q&A assistant." |}.

(** The state at the start: no collection, nothing printed, no call made. *)
Definition w0 : World := {| qdrant := ∅; stdout := []; calls := 0 |}.

(** A text of [n] words. *)
Definition text_of_words (n : nat) : string := Py.join " " (replicate n "w").

(** The states after indexing a document of 600 words once and twice. *)
Definition indexed_once : World :=
  (Rag.index_document env "intro" "Intro" (text_of_words 600) "/intro" None w0).2.
Definition indexed_twice : World :=
  (Rag.index_document env "intro" "Intro" (text_of_words 600) "/intro" None indexed_once).2.

(** An outside that fails: the embedding provider answers two calls and
    then refuses, the chat provider refuses, and its stream breaks after
    one fragment. *)
Definition flaky_env : Env :=
  {| embeddings_create := fun t _ _ =>
       if (t <? 2)%nat then Ok [0.5%float; 0.25%float]
       else Raise (ServiceError "Rate limit reached");
     utcnow_isoformat := utcnow_isoformat env;
     qdrant_search := search;
     chat_completions_create := fun _ _ _ _ => Raise (ServiceError "Connection error");
     chat_completions_stream := fun _ _ _ _ =>
       Ok (Py.GYield (Some "RAG ") (Py.GYield (Some "") (Py.GRaise (ServiceError "Connection reset"))));
     format_2f := format_2f env;
     rglob_md := rglob_md env |}.

(** An outside whose vector database finds nothing. *)
Definition bare_env : Env :=
  {| embeddings_create := embeddings_create env;
     utcnow_isoformat := utcnow_isoformat env;
     qdrant_search := fun _ _ _ _ _ _ => Ok [];
     chat_completions_create := chat_completions_create env;
     chat_completions_stream := chat_completions_stream env;
     format_2f := format_2f env;
     rglob_md := rglob_md env |}.

End Example.

(** ** The vocabulary of the properties *)

(** A string without whitespace. *)
Fixpoint nospace (s : string) : Prop :=
  match s with
  | EmptyString => True
  | String c s' => Py.isspace c = false /\ nospace s'
  end.

(** A word: not empty, without whitespace. *)
Definition word (s : string) : Prop := s <> "" /\ nospace s.

(** The ceiling of [a / b], for a positive [b]. *)
Definition ceil_div (a b : Z) : Z := (a + b - 1) / b.

(** The segment that starts at word [i]. *)
Definition segment (words : list string) (chunk_size i : Z) : string :=
  Py.join " " (Py.slice words i (i + chunk_size)).

(** The points of the collection of the book, none when it does not exist. *)
Definition book_points (w : World) : gmap string PointStruct :=
  default ∅ (qdrant w !! Rag.collection_name).

(** The ids of these points. *)
Definition point_ids (w : World) : gset string := dom (book_points w).

(** The point that [index_document] builds for the chunk of index [i]. *)
Definition is_point (doc_id : string) (i : Z) (chunk : string) (p : PointStruct) : Prop :=
  pt_id p = Rag.chunk_id doc_id i
  /\ p_text (pt_payload p) = chunk
  /\ p_doc_id (pt_payload p) = doc_id
  /\ p_chunk_index (pt_payload p) = Some i.

Fixpoint points_from (doc_id : string) (i : Z) (chunks : list string)
    (points : list PointStruct) : Prop :=
  match chunks, points with
  | [], [] => True
  | chunk :: chunks', p :: points' =>
      is_point doc_id i chunk p /\ points_from doc_id (i + 1) chunks' points'
  | _, _ => False
  end.

(** [upsert] on a list of points: insert or replace, one point after the
    other. *)
Definition upserted (c : gmap string PointStruct) (points : list PointStruct)
    : gmap string PointStruct :=
  foldl (fun c p => <[pt_id p := p]> c) c points.

(** Scores in descending order: none is followed by a greater one. *)
Definition descending (scores : list float) : Prop :=
  forall (i j : nat) (a b : float),
    (i < j)%nat -> scores !! i = Some a -> scores !! j = Some b ->
    PrimFloat.leb b a = true.

(** The contract of the search of the vector database: the answer is in
    descending order of score, has at most [limit] entries, and no entry
    has a score below the threshold. *)
Definition search_contract (env : Env) : Prop :=
  forall (t : nat) (c : gmap string PointStruct) (query_vector : list float)
         (limit : Z) (score_threshold : float) (query_filter : option string)
         (results : list ScoredPoint),
    qdrant_search env t c query_vector limit score_threshold query_filter = Ok results ->
    descending (sp_score <$> results)
    /\ Py.len results <= limit
    /\ Forall (fun r => PrimFloat.leb score_threshold (sp_score r) = true) results.

(** A string of whitespace only. *)
Fixpoint blank (s : string) : Prop :=
  match s with
  | EmptyString => True
  | String c s' => Py.isspace c = true /\ blank s'
  end.

(** The values that a generator yields, and the exception that ends it,
    if one does. *)
Fixpoint gen_values {A} (g : Py.gen A) : list A :=
  match g with
  | Py.GReturn => []
  | Py.GYield a rest => a :: gen_values rest
  | Py.GRaise _ => []
  end.

Fixpoint gen_failure {A} (g : Py.gen A) : option exn :=
  match g with
  | Py.GReturn => None
  | Py.GYield _ rest => gen_failure rest
  | Py.GRaise e => Some e
  end.

(** The content of a delta that [_stream_response] yields: one that is
    neither [None] nor empty. *)
Definition delta_token (delta : option string) : option string :=
  match delta with
  | Some content => if decide (content = "") then None else Some content
  | None => None
  end.

(** Two states with the same collections and the same number of calls
    made: they differ in what was printed, at most. *)
Definition same_store (w v : World) : Prop :=
  qdrant w = qdrant v /\ calls w = calls v.

(** The lines that the route prints for the files it could not index. *)
Definition is_error_line (l : line) : bool :=
  match l with
  | ErrorIndexing _ _ => true
  | _ => false
  end.

Definition error_lines (w : World) : list line :=
  filter (fun l => is_error_line l = true) (stdout w).

(** The sum of the chunk counts of the entries of [indexed_files]. *)
Definition chunks_total (indexed_files : list Admin.IndexedFile) : Z :=
  foldr (fun entry total => Admin.chunks entry + total) 0 indexed_files.

(** A computation whose result and store do not depend on what was
    printed before. *)
Definition respects {A} (m : M A) : Prop :=
  forall w v : World,
    same_store w v -> (m w).1 = (m v).1 /\ same_store (m w).2 (m v).2.

(** A computation that prints no error line of the route. *)
Definition quiet {A} (m : M A) : Prop :=
  forall w : World, error_lines (m w).2 = error_lines w.

(** A file that the script does not skip for its length: one that cannot
    be read, or one with at least 100 characters once stripped. *)
Definition not_short (md_file : MdFile) : Prop :=
  forall content : string,
    read md_file = Ok content -> 100 <= Py.slen (Py.strip content).

(** The state after more lines were printed. *)
Definition printed (lines : list line) (w : World) : World :=
  {| qdrant := qdrant w; stdout := stdout w ++ lines; calls := calls w |}.


(** * Properties *)

(** ** The primitives on examples *)

Section Examples.

Example split_ex : Py.split "  the quick	brown
fox " = ["the"; "quick"; "brown"; "fox"].
Proof. reflexivity. Qed.

Example strip_ex : Py.strip "  a b  " = "a b".
Proof. reflexivity. Qed.

Example slice_ex1 : Py.slice [1; 2; 3; 4; 5] 1 3 = [2; 3].
Proof. reflexivity. Qed.

Example slice_ex2 : Py.slice [1; 2; 3; 4; 5] 3 10 = [4; 5].
Proof. reflexivity. Qed.

Example slice_ex3 : Py.slice [1; 2; 3; 4; 5] 0 (-1) = [1; 2; 3; 4].
Proof. reflexivity. Qed.

Example slice_ex4 : Py.slice [1; 2; 3; 4; 5] 2 1 = [].
Proof. reflexivity. Qed.

Example range_ex1 : Py.range 0 10 4 = Ok [0; 4; 8].
Proof. reflexivity. Qed.

Example range_ex2 : Py.range 0 10 (-1) = Ok [].
Proof. reflexivity. Qed.

Example range_ex3 : Py.range 5 0 (-2) = Ok [5; 3; 1].
Proof. reflexivity. Qed.

Example title_ex : Py.title (Py.replace "-" " " "what-is-rAG") = "What Is Rag".
Proof. reflexivity. Qed.

Example replace_ex1 : Py.replace "aa" "b" "aaa" = "ba".
Proof. reflexivity. Qed.

Example replace_ex2 : Py.replace ".md" "" "chapter-1/intro.md" = "chapter-1/intro".
Proof. reflexivity. Qed.

Example chapter_ex :
  Meta.chapter_of (Example.md "Chapter-2-retrieval" "dense-vectors" (Ok ""))
  = "Chapter 2 Retrieval".
Proof. reflexivity. Qed.

Example chunk_text_ex1 :
  Rag.chunk_text "a b  c d
 e" 3 1 = Ok ["a b c"; "c d e"; "e"].
Proof. reflexivity. Qed.

Example chunk_text_ex2 : Rag.chunk_text "a b c" (-1) (-2) = Ok ["a b"].
Proof. reflexivity. Qed.

Example chunk_text_ex3 : Rag.chunk_text "a b c" 0 (-1) = Ok [].
Proof. reflexivity. Qed.

(** The scenario of the specification, with the chunk size and overlap
    of [Settings]: 150 words give one segment, 900 words give two. *)
Example chunk_text_scenario :
  (Py.len <$> Rag.chunk_text (Example.text_of_words 150) 800 100) = Ok 1
  /\ (Py.len <$> Rag.chunk_text (Example.text_of_words 900) 800 100) = Ok 2.
Proof. split; vm_compute; reflexivity. Qed.

Example generate_ex :
  (Chat.generate Example.agent Example.env
     {| Chat.question := "What is RAG?"; Chat.top_k := 1; Chat.chapter_filter := None |}
     Example.w0).1
  = [ Chat.StreamToken "RAG "; Chat.StreamToken "retrieves";
      Chat.StreamSources
        [ {| Chat.page_title := "Intro"; Chat.page_url := "/intro";
             Chat.section := "Chapter 1"; Chat.relevance_score := 0.875%float |} ];
      Chat.StreamDone ].
Proof. reflexivity. Qed.

Example generate_not_found_ex :
  (Chat.generate Example.agent Example.env
     {| Chat.question := "What is RAG?"; Chat.top_k := 1;
        Chat.chapter_filter := Some "Chapter 9" |}
     Example.w0).1
  = [ Chat.StreamError "No relevant content found" ].
Proof. reflexivity. Qed.

End Examples.

(** ** Strings *)

Section Strings.

Lemma sapp_nil_l (s : string) : "" +:+ s = s.
Proof. reflexivity. Qed.

Lemma sapp_cons (c : ascii) (s t : string) : String c s +:+ t = String c (s +:+ t).
Proof. reflexivity. Qed.

Lemma sapp_nil_r (s : string) : s +:+ "" = s.
Proof. induction s as [|c s IH]; [reflexivity|]. rewrite sapp_cons, IH. reflexivity. Qed.

Lemma sapp_assoc (s t u : string) : (s +:+ t) +:+ u = s +:+ (t +:+ u).
Proof.
  induction s as [|c s IH]; [reflexivity|].
  rewrite !sapp_cons, IH. reflexivity.
Qed.

Lemma nospace_app (s t : string) : nospace s -> nospace t -> nospace (s +:+ t).
Proof.
  induction s as [|c s IH]; intros Hs Ht; [exact Ht|].
  destruct Hs as [Hc Hs]. rewrite sapp_cons. split; [exact Hc | auto].
Qed.

Lemma sapp_not_nil_r (s : string) (c : ascii) : s +:+ String c "" <> "".
Proof. destruct s; discriminate. Qed.

(** Every element of the list that [split] returns is a word. *)
Lemma split_go_words (s cur : string) :
  nospace cur -> Forall word (Py.split_go cur s).
Proof.
  revert cur. induction s as [|c s IH]; intros cur Hcur; simpl.
  - destruct (decide (cur = "")); [constructor|].
    repeat constructor; assumption.
  - destruct (Py.isspace c) eqn:Hc.
    + destruct (decide (cur = "")).
      * apply IH. exact I.
      * constructor; [split; assumption | apply IH; exact I].
    + apply IH. apply nospace_app; [assumption | split; [assumption | exact I]].
Qed.

Lemma split_words (s : string) : Forall word (Py.split s).
Proof. apply split_go_words. exact I. Qed.

(** Reading a string without whitespace only extends the current run. *)
Lemma split_go_app (w cur rest : string) :
  nospace w -> Py.split_go cur (w +:+ rest) = Py.split_go (cur +:+ w) rest.
Proof.
  revert cur. induction w as [|c w IH]; intros cur Hw.
  - rewrite sapp_nil_l, sapp_nil_r. reflexivity.
  - destruct Hw as [Hc Hw]. rewrite sapp_cons. simpl. rewrite Hc.
    rewrite IH by assumption. rewrite sapp_assoc, sapp_cons, sapp_nil_l. reflexivity.
Qed.

Lemma join_cons_cons (sep w w' : string) (ws : list string) :
  Py.join sep (w :: w' :: ws) = w +:+ sep +:+ Py.join sep (w' :: ws).
Proof. reflexivity. Qed.

(** [split] undoes [join] over a single space on a list of words. *)
Lemma split_join (ws : list string) :
  Forall word ws -> Py.split (Py.join " " ws) = ws.
Proof.
  unfold Py.split. induction ws as [|w ws IH]; intros Hws; [reflexivity|].
  inversion Hws as [|? ? [Hne Hw] Hrest]; subst.
  destruct ws as [|w' ws].
  - change (Py.join " " [w]) with w.
    rewrite <- (sapp_nil_r w) at 1. rewrite split_go_app by assumption.
    rewrite sapp_nil_l. simpl. destruct (decide (w = "")); [contradiction | reflexivity].
  - rewrite join_cons_cons, split_go_app by assumption.
    rewrite sapp_nil_l. change (" " +:+ ?s) with (String " " s).
    cbn [Py.split_go].
    replace (Py.isspace " ") with true by reflexivity.
    destruct (decide (w = "")); [contradiction|].
    rewrite IH by assumption. reflexivity.
Qed.

(** A joined list of words that is not empty survives [strip]. *)
Lemma strip_join_words (ws : list string) :
  Forall word ws -> ws <> [] -> Py.strip (Py.join " " ws) <> "".
Proof.
  intros Hws Hne. destruct ws as [|w ws]; [contradiction|].
  inversion Hws as [|? ? [Hw Hns] _]; subst.
  destruct w as [|c w]; [contradiction|]. destruct Hns as [Hc _].
  assert (exists r, Py.join " " (String c w :: ws) = String c r) as [r ->].
  { destruct ws; [eexists; reflexivity|].
    rewrite join_cons_cons, sapp_cons. eexists; reflexivity. }
  unfold Py.strip. simpl. rewrite Hc. simpl.
  destruct (Py.rstrip r); [rewrite Hc|]; discriminate.
Qed.

End Strings.

(** ** Slices, ranges and loops *)

Section Lists.

Context {A : Type}.

(** A loop that appends [f i] when [p i] holds builds a filtered map. *)
Lemma foldl_append_if {B : Type} (p : B -> bool) (f : B -> A) (l : list B) (acc : list A) :
  foldl (fun acc i => if p i then acc ++ [f i] else acc) acc l
  = acc ++ (f <$> filter (fun i => p i = true) l).
Proof.
  revert acc. induction l as [|i l IH]; intros acc; simpl.
  - rewrite app_nil_r. reflexivity.
  - rewrite IH. rewrite filter_cons. destruct (p i) eqn:Hp.
    + rewrite decide_True by reflexivity. rewrite fmap_cons, <- app_assoc. reflexivity.
    + rewrite decide_False by discriminate. reflexivity.
Qed.

Lemma foldl_snoc {B : Type} (f : B -> A) (l : list B) (acc : list A) :
  foldl (fun acc i => acc ++ [f i]) acc l = acc ++ (f <$> l).
Proof.
  revert acc. induction l as [|i l IH]; intros acc; simpl.
  - rewrite app_nil_r. reflexivity.
  - rewrite IH, <- app_assoc. reflexivity.
Qed.

(** Inside the list and with a positive size, [l[i:i+n]] reads [l] from
    [i] on. *)
Lemma slice_lookup (l : list A) (i n : Z) (j : nat) :
  0 <= i -> Z.of_nat j < n ->
  Py.slice l i (i + n) !! j = l !! (Z.to_nat i + j)%nat.
Proof.
  intros Hi Hj. unfold Py.slice, Py.adjust_index, Py.len.
  destruct (i <? 0) eqn:E1; [apply Z.ltb_lt in E1; lia|].
  destruct (i + n <? 0) eqn:E2; [apply Z.ltb_lt in E2; lia|].
  destruct (decide (Z.to_nat i + j < length l)%nat) as [Hlt|Hge].
  - rewrite (Z.min_l i) by lia.
    rewrite lookup_take_lt by lia. rewrite lookup_drop. reflexivity.
  - rewrite (lookup_ge_None_2 l) by lia.
    apply lookup_ge_None_2. rewrite length_take, length_drop. lia.
Qed.

End Lists.

Lemma ceil_div_spec (a b : Z) :
  0 < b -> b * (ceil_div a b - 1) < a <= b * ceil_div a b.
Proof.
  intros Hb. unfold ceil_div.
  pose proof (Z.div_mod (a + b - 1) b ltac:(lia)).
  pose proof (Z.mod_pos_bound (a + b - 1) b Hb). nia.
Qed.

Lemma ceil_div_nonneg (a b : Z) : 0 < b -> 0 <= a -> 0 <= ceil_div a b.
Proof. intros Hb Ha. unfold ceil_div. apply Z.div_pos; lia. Qed.

(** With a positive step, [range(0, stop, step)] lists the multiples of
    the step below [stop]; there are [ceil(stop / step)] of them. *)
Lemma range_positive (stop step : Z) :
  0 < step -> 0 <= stop ->
  Py.range 0 stop step
  = Ok ((fun k => Z.of_nat k * step) <$> seq 0 (Z.to_nat (ceil_div stop step))).
Proof.
  intros Hstep Hstop. unfold Py.range.
  destruct (step =? 0) eqn:E0; [apply Z.eqb_eq in E0; lia|].
  destruct (0 <? step) eqn:E1; [|apply Z.ltb_ge in E1; lia].
  assert ((if 0 <? stop then (stop - 0 - 1) / step + 1 else 0) = ceil_div stop step) as ->.
  { unfold ceil_div. destruct (0 <? stop) eqn:E2.
    - replace (stop + step - 1) with (stop - 0 - 1 + 1 * step) by lia.
      rewrite Z.div_add by lia. reflexivity.
    - apply Z.ltb_ge in E2. assert (stop = 0) as -> by lia.
      symmetry. apply Z.div_small. lia. }
  reflexivity.
Qed.

(** With a negative step, [range(0, stop, step)] is empty. *)
Lemma range_negative (stop step : Z) :
  step < 0 -> 0 <= stop -> Py.range 0 stop step = Ok [].
Proof.
  intros Hstep Hstop. unfold Py.range.
  destruct (step =? 0) eqn:E0; [apply Z.eqb_eq in E0; lia|].
  destruct (0 <? step) eqn:E1; [apply Z.ltb_lt in E1; lia|].
  destruct (stop <? 0) eqn:E2; [apply Z.ltb_lt in E2; lia|].
  reflexivity.
Qed.

Lemma range_zero (start stop : Z) :
  Py.range start stop 0 = Raise (ValueError "range() arg 3 must not be zero").
Proof. reflexivity. Qed.

(** ** [chunk_text] *)

Section ChunkText.

(** The segment of a start inside the text is made of words and is kept by
    the loop. *)
Lemma segment_words (text : string) (chunk_size i : Z) :
  Forall word (Py.slice (Py.split text) i (i + chunk_size)).
Proof.
  unfold Py.slice. apply Forall_take, Forall_drop, split_words.
Qed.

Lemma segment_kept (text : string) (chunk_size i : Z) :
  0 < chunk_size -> 0 <= i < Py.len (Py.split text) ->
  (0 <? Py.slen (Py.strip (segment (Py.split text) chunk_size i))) = true.
Proof.
  intros Hcs Hi. apply Z.ltb_lt. unfold Py.slen.
  assert (Py.strip (segment (Py.split text) chunk_size i) <> "") as Hne.
  { apply strip_join_words; [apply segment_words|].
    intros Hnil.
    pose proof (slice_lookup (Py.split text) i chunk_size 0 ltac:(lia) ltac:(lia)) as Hl.
    rewrite Hnil in Hl. simpl in Hl. symmetry in Hl.
    apply lookup_ge_None_1 in Hl. unfold Py.len in Hi. lia. }
  destruct (Py.strip _); [contradiction | simpl; lia].
Qed.

(** With [overlap < chunk_size], [chunk_text] returns the kept segments of
    the starts [0, step, 2 * step, ...] below the number of words. *)
Lemma chunk_text_positive_step (text : string) (chunk_size overlap : Z) :
  overlap < chunk_size ->
  Rag.chunk_text text chunk_size overlap
  = Ok (segment (Py.split text) chunk_size <$>
        filter (fun i => (0 <? Py.slen (Py.strip (segment (Py.split text) chunk_size i))) = true)
          ((fun k => Z.of_nat k * (chunk_size - overlap)) <$>
           seq 0 (Z.to_nat (ceil_div (Py.len (Py.split text)) (chunk_size - overlap))))).
Proof.
  intros Hstep. unfold Rag.chunk_text.
  rewrite range_positive by (unfold Py.len; lia).
  cbn [mbind result_bind]. f_equal.
  exact (foldl_append_if
           (fun i => 0 <? Py.slen (Py.strip (segment (Py.split text) chunk_size i)))
           (segment (Py.split text) chunk_size) _ []).
Qed.

(** The starts of the loop lie inside the text. *)
Lemma starts_inside (n step : Z) (k : nat) :
  0 < step -> 0 <= n -> (k < Z.to_nat (ceil_div n step))%nat ->
  0 <= Z.of_nat k * step < n.
Proof.
  intros Hstep Hn Hk. pose proof (ceil_div_spec n step Hstep).
  pose proof (ceil_div_nonneg n step Hstep Hn). nia.
Qed.

Lemma filter_all {B : Type} (p : B -> bool) (l : list B) :
  Forall (fun i => p i = true) l -> filter (fun i => p i = true) l = l.
Proof.
  induction 1 as [|i l Hi _ IH]; [reflexivity|].
  rewrite filter_cons, decide_True by assumption. rewrite IH. reflexivity.
Qed.

(** With [0 < chunk_size] as well, no segment is dropped. *)
Lemma chunk_text_all_kept (text : string) (chunk_size overlap : Z) :
  0 < chunk_size -> overlap < chunk_size ->
  Rag.chunk_text text chunk_size overlap
  = Ok (segment (Py.split text) chunk_size <$>
        ((fun k => Z.of_nat k * (chunk_size - overlap)) <$>
         seq 0 (Z.to_nat (ceil_div (Py.len (Py.split text)) (chunk_size - overlap))))).
Proof.
  intros Hcs Hstep. rewrite chunk_text_positive_step by assumption.
  do 2 f_equal. apply filter_all.
  apply Forall_fmap, Forall_seq. intros k [_ Hk]. simpl.
  apply segment_kept; [assumption|].
  apply starts_inside; unfold Py.len in *; lia.
Qed.

(** C1, as the code has it: for [0 < overlap < chunk_size <= N], where [N]
    is the number of words of the text, [chunk_text] returns exactly
    [ceil(N / (chunk_size - overlap))] segments, each of them is not
    empty, and every word of the text is a word of some segment. *)
Theorem chunk_text_segments (text : string) (chunk_size overlap : Z) :
  0 < overlap -> overlap < chunk_size -> chunk_size <= Py.len (Py.split text) ->
  exists chunks : list string,
    Rag.chunk_text text chunk_size overlap = Ok chunks
    /\ Py.len chunks = ceil_div (Py.len (Py.split text)) (chunk_size - overlap)
    /\ Forall (fun chunk => chunk <> "") chunks
    /\ forall (p : nat) (w : string),
         Py.split text !! p = Some w ->
         exists chunk, chunk ∈ chunks /\ w ∈ Py.split chunk.
Proof.
  intros Hov Hstep HN.
  set (step := chunk_size - overlap). set (words := Py.split text).
  assert (0 < step) as Hpos by (unfold step; lia).
  assert (0 <= Py.len words) as Hlen by (unfold Py.len; lia).
  pose proof (ceil_div_nonneg (Py.len words) step Hpos Hlen) as Hn.
  eexists. split; [apply chunk_text_all_kept; lia|].
  fold step words. split; [|split].
  - unfold Py.len at 1. rewrite !length_fmap, length_seq. lia.
  - apply Forall_fmap, Forall_fmap, Forall_seq. intros k [_ Hk]. simpl.
    intros Hnil.
    pose proof (segment_kept text chunk_size (Z.of_nat k * step) ltac:(lia)
                  (starts_inside _ _ _ Hpos Hlen Hk)) as Hkept.
    fold words in Hkept. rewrite Hnil in Hkept. discriminate.
  - intros p w Hp.
    assert (Z.of_nat p < Py.len words) as Hplt.
    { apply lookup_lt_Some in Hp. unfold Py.len. lia. }
    pose proof (ceil_div_spec (Py.len words) step Hpos) as Hceil.
    pose proof (Z.div_mod (Z.of_nat p) step ltac:(lia)) as Hdm.
    pose proof (Z.mod_pos_bound (Z.of_nat p) step Hpos) as Hmod.
    pose proof (Z.div_pos (Z.of_nat p) step ltac:(lia) Hpos) as Hq.
    set (q := Z.of_nat p / step) in *.
    exists (segment words chunk_size (q * step)). split.
    + apply list_elem_of_fmap. exists (q * step). split; [reflexivity|].
      apply list_elem_of_fmap. exists (Z.to_nat q). split; [lia|].
      apply elem_of_seq. nia.
    + unfold segment. rewrite split_join by apply segment_words.
      apply list_elem_of_lookup. exists (Z.to_nat (Z.of_nat p - q * step)).
      rewrite slice_lookup by nia.
      replace (Z.to_nat (q * step) + Z.to_nat (Z.of_nat p - q * step))%nat with p by nia.
      exact Hp.
Qed.

Lemma chunk_text_segments_witness :
  exists chunks : list string,
    Rag.chunk_text "a b c d e" 3 1 = Ok chunks
    /\ Py.len chunks = ceil_div (Py.len (Py.split "a b c d e")) (3 - 1)
    /\ Forall (fun chunk => chunk <> "") chunks
    /\ forall (p : nat) (w : string),
         Py.split "a b c d e" !! p = Some w ->
         exists chunk, chunk ∈ chunks /\ w ∈ Py.split chunk.
Proof.
  apply (chunk_text_segments "a b c d e" 3 1); vm_compute; congruence.
Defined.

(** C1 as the specification states it fails: on the two words of "a b"
    with [chunk_size = 2] and [overlap = 1] the loop starts a segment at
    each of the words 0 and 1, while [ceil((N - overlap) / (chunk_size -
    overlap))] is 1. *)
Lemma chunk_text_count_counterexample :
  (0 < 1 /\ 1 < 2 /\ 2 <= Py.len (Py.split "a b"))
  /\ Rag.chunk_text "a b" 2 1 = Ok ["a b"; "b"]
  /\ Py.len ["a b"; "b"] <> ceil_div (Py.len (Py.split "a b") - 1) (2 - 1).
Proof. vm_compute. repeat split; congruence. Qed.

End ChunkText.

Section BadParameters.

(** C3, as the code has it: [chunk_text] checks no parameter and knows no
    [ConfigurationError].  With [overlap = chunk_size] the [range] of the
    loop raises a [ValueError] before any segment is built; with
    [overlap > chunk_size] the range is empty and the empty list is
    returned; with [chunk_size <= 0] and [overlap < chunk_size] the step is
    positive and a list of at most [ceil(N / step)] segments is returned.
    The loop is over a finite range in every case. *)
Theorem chunk_text_bad_parameters (text : string) (chunk_size overlap : Z) :
  chunk_size <= 0 \/ overlap >= chunk_size ->
  (overlap = chunk_size ->
     Rag.chunk_text text chunk_size overlap
     = Raise (ValueError "range() arg 3 must not be zero"))
  /\ (overlap > chunk_size -> Rag.chunk_text text chunk_size overlap = Ok [])
  /\ (overlap < chunk_size ->
        exists chunks : list string,
          Rag.chunk_text text chunk_size overlap = Ok chunks
          /\ Py.len chunks <= ceil_div (Py.len (Py.split text)) (chunk_size - overlap))
  /\ (forall e : exn,
        Rag.chunk_text text chunk_size overlap = Raise e -> exn_class e = "ValueError").
Proof.
  intros _.
  assert (0 <= Py.len (Py.split text)) as Hlen by (unfold Py.len; lia).
  split; [|split; [|split]].
  - intros ->. unfold Rag.chunk_text. rewrite Z.sub_diag, range_zero. reflexivity.
  - intros Hgt. unfold Rag.chunk_text. rewrite range_negative by lia. reflexivity.
  - intros Hlt. eexists. split; [apply chunk_text_positive_step; assumption|].
    pose proof (ceil_div_nonneg (Py.len (Py.split text)) (chunk_size - overlap)
                  ltac:(lia) Hlen).
    unfold Py.len at 1. rewrite length_fmap.
    etransitivity; [apply inj_le, length_filter|].
    rewrite length_fmap, length_seq. lia.
  - intros e He.
    destruct (Z.lt_trichotomy overlap chunk_size) as [Hlt|[->|Hgt]].
    + rewrite chunk_text_positive_step in He by assumption. discriminate.
    + unfold Rag.chunk_text in He. rewrite Z.sub_diag, range_zero in He.
      injection He as <-. reflexivity.
    + unfold Rag.chunk_text in He. rewrite range_negative in He by lia. discriminate.
Qed.

Lemma chunk_text_bad_parameters_witness :
  Rag.chunk_text "a b c" 2 2 = Raise (ValueError "range() arg 3 must not be zero").
Proof.
  refine (proj1 (chunk_text_bad_parameters "a b c" 2 2 _) _); [right; lia | reflexivity].
Defined.

(** C3 as the specification states it fails: with [chunk_size = 1] and
    [overlap = 2] the call returns the empty list, and raises nothing. *)
Lemma chunk_text_no_configuration_error :
  2 >= 1
  /\ Rag.chunk_text "a b c" 1 2 = Ok []
  /\ ~ (exists e : exn,
          Rag.chunk_text "a b c" 1 2 = Raise e /\ exn_class e = "ConfigurationError").
Proof.
  split; [lia|]. split; [reflexivity|].
  intros [e [He _]]. vm_compute in He. discriminate.
Qed.

End BadParameters.

(** ** The monad *)

Section Monad.

Context {A B : Type}.

Lemma bind_run (m : M A) (f : A -> M B) (w : World) :
  (m ≫= f) w
  = match m w with
    | (Ok a, w') => f a w'
    | (Raise e, w') => (Raise e, w')
    end.
Proof. reflexivity. Qed.

Lemma bind_Ok (m : M A) (f : A -> M B) (w w' : World) (b : B) :
  (m ≫= f) w = (Ok b, w') ->
  exists a w1, m w = (Ok a, w1) /\ f a w1 = (Ok b, w').
Proof.
  rewrite bind_run. destruct (m w) as [[a|e] w1]; [eauto | discriminate].
Qed.

Lemma bind_Ok_run (m : M A) (f : A -> M B) (w w1 : World) (a : A) :
  m w = (Ok a, w1) -> (m ≫= f) w = f a w1.
Proof. intros H. rewrite bind_run, H. reflexivity. Qed.

Lemma bind_Raise_run (m : M A) (f : A -> M B) (w w1 : World) (e : exn) :
  m w = (Raise e, w1) -> (m ≫= f) w = (Raise e, w1).
Proof. intros H. rewrite bind_run, H. reflexivity. Qed.

End Monad.

(** ** [ensure_collection_exists] and [index_document] *)

Section Index.

Lemma ensure_collection_exists_run (w : World) :
  exists w1,
    Rag.ensure_collection_exists w = (Ok tt, w1)
    /\ qdrant w1 !! Rag.collection_name = Some (book_points w)
    /\ calls w1 = calls w.
Proof.
  unfold Rag.ensure_collection_exists, try_except, book_points.
  rewrite bind_run. unfold Qdrant.get_collection.
  destruct (qdrant w !! Rag.collection_name) as [c|] eqn:Hc.
  - eexists. split; [reflexivity|]. split; [exact Hc | reflexivity].
  - eexists. split; [reflexivity|]. split; [|reflexivity].
    cbn. apply lookup_insert_eq.
Qed.

Lemma index_points_run (env : Env) (doc_id title url : string) (chapter : option string)
    (chunks : list string) :
  forall (i : Z) (points ps : list PointStruct) (w w' : World),
    Rag.index_points env doc_id title url chapter i chunks points w = (Ok ps, w') ->
    qdrant w' = qdrant w
    /\ exists new, ps = points ++ new /\ points_from doc_id i chunks new.
Proof.
  induction chunks as [|chunk chunks IH]; intros i points ps w w' Hrun.
  - injection Hrun as <- <-. split; [reflexivity|].
    exists []. rewrite app_nil_r. split; [reflexivity | exact I].
  - cbn [Rag.index_points] in Hrun.
    apply bind_Ok in Hrun as (embedding & w1 & Hemb & Hrun).
    apply bind_Ok in Hrun as (now & w2 & Hnow & Hrun).
    apply IH in Hrun as (Hq & new & -> & Hnew).
    assert (qdrant w2 = qdrant w) as Hq2.
    { unfold Rag.create_embedding in Hemb. rewrite bind_run in Hemb. cbn in Hemb.
      destruct (embeddings_create env _ _ _); [|discriminate].
      injection Hemb as _ <-. unfold utcnow in Hnow. cbn in Hnow.
      injection Hnow as _ <-. reflexivity. }
    split; [congruence|].
    eexists (_ :: new). rewrite <- app_assoc. split; [reflexivity|].
    split; [repeat split | exact Hnew].
Qed.

(** The ids of the points built from index [i] on. *)
Lemma points_from_ids (doc_id : string) (chunks : list string) :
  forall (i : Z) (points : list PointStruct),
    points_from doc_id i chunks points ->
    pt_id <$> points
    = (fun k => Rag.chunk_id doc_id (i + Z.of_nat k)) <$> seq 0 (length chunks).
Proof.
  induction chunks as [|chunk chunks IH]; intros i [|p points] H; try contradiction.
  - reflexivity.
  - destruct H as [[Hid _] H]. cbn [length seq fmap list_fmap].
    rewrite Hid, Z.add_0_r. f_equal.
    rewrite (IH _ _ H). rewrite <- fmap_S_seq, <- list_fmap_compose.
    apply list_fmap_ext. intros _ k _. cbn. f_equal. lia.
Qed.

Lemma chunk_id_inj (doc_id : string) (i j : Z) :
  Rag.chunk_id doc_id i = Rag.chunk_id doc_id j -> i = j.
Proof.
  unfold Rag.chunk_id. intros H.
  apply (inj (String.app doc_id)) in H.
  apply (inj (String.app "_chunk_")) in H.
  apply (inj pretty) in H. exact H.
Qed.

Lemma upserted_dom (points : list PointStruct) (c : gmap string PointStruct) :
  dom (upserted c points) = dom c ∪ list_to_set (pt_id <$> points).
Proof.
  revert c. induction points as [|p points IH]; intros c.
  - cbn. rewrite union_empty_r_L. reflexivity.
  - cbn [upserted foldl]. unfold upserted in IH. rewrite IH, dom_insert_L.
    rewrite fmap_cons, list_to_set_cons.
    rewrite (comm_L (∪) {[pt_id p]} (dom c)), <- (assoc_L (∪)). reflexivity.
Qed.

Lemma upserted_lookup_other (points : list PointStruct) (c : gmap string PointStruct)
    (id : string) :
  id ∉ pt_id <$> points -> upserted c points !! id = c !! id.
Proof.
  revert c. induction points as [|p points IH]; intros c Hid; cbn; [reflexivity|].
  rewrite fmap_cons, not_elem_of_cons in Hid. destruct Hid as [Hne Hid].
  unfold upserted in IH. rewrite IH by assumption.
  apply lookup_insert_ne. congruence.
Qed.

(** After the upsert, the point of chunk [k] is stored under its id. *)
Lemma upserted_lookup_point (doc_id : string) (chunks : list string) :
  forall (i : Z) (points : list PointStruct) (c : gmap string PointStruct)
         (k : nat) (chunk : string),
    points_from doc_id i chunks points ->
    chunks !! k = Some chunk ->
    exists p, upserted c points !! Rag.chunk_id doc_id (i + Z.of_nat k) = Some p
              /\ is_point doc_id (i + Z.of_nat k) chunk p.
Proof.
  induction chunks as [|chunk0 chunks IH]; intros i [|p points] c k chunk H Hk;
    try contradiction; [discriminate|].
  destruct H as [Hp H]. destruct k as [|k].
  - injection Hk as <-. rewrite Z.add_0_r. exists p. split; [|exact Hp].
    cbn. change (foldl _ ?c points) with (upserted c points).
    rewrite upserted_lookup_other.
    + destruct Hp as [<- _]. apply lookup_insert_eq.
    + rewrite (points_from_ids _ _ _ _ H). intros Hin.
      apply list_elem_of_fmap in Hin as (j & Hj & _).
      apply chunk_id_inj in Hj. lia.
  - cbn in Hk. destruct (IH (i + 1) points (<[pt_id p := p]> c) k chunk H Hk)
      as (q & Hq & Hpoint).
    replace (i + Z.of_nat (S k)) with (i + 1 + Z.of_nat k) by lia.
    exists q. split; [exact Hq | exact Hpoint].
Qed.

(** What a call of [index_document] that returns has done: the chunks are
    those of [chunk_text] with its defaults, there is one point for each,
    and the points were upserted into the collection of the book. *)
Lemma index_document_run (env : Env) (doc_id title content url : string)
    (chapter : option string) (w w' : World) (n : Z) :
  Rag.index_document env doc_id title content url chapter w = (Ok n, w') ->
  exists (chunks : list string) (points : list PointStruct),
    Rag.chunk_text content 500 100 = Ok chunks
    /\ n = Py.len chunks
    /\ points_from doc_id 0 chunks points
    /\ book_points w' = upserted (book_points w) points.
Proof.
  unfold Rag.index_document. intros Hrun.
  destruct (ensure_collection_exists_run w) as (w1 & Hens & Hcoll & _).
  rewrite (bind_Ok_run _ _ _ _ _ Hens) in Hrun.
  apply bind_Ok in Hrun as (chunks & w1' & Hchunks & Hrun).
  unfold lift in Hchunks.
  remember (Rag.chunk_text content Rag.default_chunk_size Rag.default_overlap)
    as r eqn:Hr.
  injection Hchunks as -> <-. symmetry in Hr. rename Hr into Hchunks.
  apply bind_Ok in Hrun as (points & w2 & Hpoints & Hrun).
  apply index_points_run in Hpoints as (Hq & new & -> & Hnew).
  apply bind_Ok in Hrun as ([] & w3 & Hups & Hrun).
  injection Hrun as <- <-.
  exists chunks, new. split; [exact Hchunks|]. split; [reflexivity|].
  split; [exact Hnew|].
  unfold Qdrant.upsert in Hups. rewrite bind_run in Hups.
  unfold Qdrant.get_collection in Hups. rewrite Hq, Hcoll in Hups.
  cbn in Hups. injection Hups as <-.
  unfold book_points at 1. cbn. rewrite lookup_insert_eq. reflexivity.
Qed.

(** When the embedding provider answers every request, the loop over the
    chunks returns, and so does [index_document]. *)
Lemma index_points_returns (env : Env) (doc_id title url : string)
    (chapter : option string) (chunks : list string) :
  (forall (t : nat) (text : string),
     exists v, embeddings_create env t Rag.embedding_model text = Ok v) ->
  forall (i : Z) (points : list PointStruct) (w : World),
  exists (ps : list PointStruct) (w' : World),
    Rag.index_points env doc_id title url chapter i chunks points w = (Ok ps, w').
Proof.
  intros Hembed. induction chunks as [|chunk chunks IH]; intros i points w.
  - eexists _, _. reflexivity.
  - cbn [Rag.index_points]. unfold Rag.create_embedding.
    rewrite !bind_run. cbn [tick lift].
    destruct (Hembed (calls w) chunk) as [v ->].
    rewrite bind_run. unfold utcnow. rewrite bind_run. cbn [tick mret M_ret].
    apply IH.
Qed.

Lemma index_document_returns (env : Env) (doc_id title content url : string)
    (chapter : option string) (w : World) :
  (forall (t : nat) (text : string),
     exists v, embeddings_create env t Rag.embedding_model text = Ok v) ->
  exists (n : Z) (w' : World),
    Rag.index_document env doc_id title content url chapter w = (Ok n, w').
Proof.
  intros Hembed. unfold Rag.index_document.
  destruct (ensure_collection_exists_run w) as (w1 & Hens & Hcoll & _).
  rewrite (bind_Ok_run _ _ _ _ _ Hens).
  unfold Rag.default_chunk_size, Rag.default_overlap.
  rewrite chunk_text_positive_step by lia.
  rewrite bind_run. cbn [lift].
  match goal with
  | |- context [Rag.index_points _ _ _ _ _ _ ?chunks _] =>
      destruct (index_points_returns env doc_id title url chapter chunks Hembed 0 [] w1)
        as (ps & w2 & Hpoints)
  end.
  rewrite (bind_Ok_run _ _ _ _ _ Hpoints).
  apply index_points_run in Hpoints as (Hq & _).
  unfold Qdrant.upsert, Qdrant.get_collection. rewrite !bind_run, Hq, Hcoll.
  eexists _, _. reflexivity.
Qed.

(** C6: a call of [index_document] stores chunk [k] under the id
    ["{doc_id}_chunk_{k}"], counting from 0.  A second call for the same
    document returns the same count, writes to the same ids, and leaves
    the set of the stored ids, and so the number of points, as it was:
    the upsert replaces, it does not add. *)
Theorem index_document_idempotent (env : Env) (doc_id title content url : string)
    (chapter : option string) (w w1 w2 : World) (n1 n2 : Z) :
  Rag.index_document env doc_id title content url chapter w = (Ok n1, w1) ->
  Rag.index_document env doc_id title content url chapter w1 = (Ok n2, w2) ->
  n2 = n1
  /\ point_ids w1
     = point_ids w ∪
       list_to_set ((fun k => Rag.chunk_id doc_id (Z.of_nat k)) <$> seq 0 (Z.to_nat n1))
  /\ (forall k : nat, (k < Z.to_nat n1)%nat ->
        exists p1 p2,
          book_points w1 !! Rag.chunk_id doc_id (Z.of_nat k) = Some p1
          /\ book_points w2 !! Rag.chunk_id doc_id (Z.of_nat k) = Some p2
          /\ pt_id p1 = pt_id p2
          /\ p_text (pt_payload p1) = p_text (pt_payload p2)
          /\ p_chunk_index (pt_payload p1) = Some (Z.of_nat k)
          /\ p_chunk_index (pt_payload p2) = Some (Z.of_nat k))
  /\ point_ids w2 = point_ids w1
  /\ size (book_points w2) = size (book_points w1).
Proof.
  intros H1 H2.
  apply index_document_run in H1 as (chunks1 & points1 & Hc1 & -> & Hp1 & Hb1).
  apply index_document_run in H2 as (chunks2 & points2 & Hc2 & -> & Hp2 & Hb2).
  assert (chunks2 = chunks1) as -> by congruence.
  unfold Py.len. rewrite Nat2Z.id.
  assert (point_ids w1
          = point_ids w ∪
            list_to_set ((fun k => Rag.chunk_id doc_id (Z.of_nat k)) <$>
                         seq 0 (length chunks1))) as Hids1.
  { unfold point_ids. rewrite Hb1, upserted_dom.
    rewrite (points_from_ids _ _ _ _ Hp1). reflexivity. }
  assert (point_ids w2 = point_ids w1) as Hids2.
  { unfold point_ids at 1. rewrite Hb2, upserted_dom.
    rewrite (points_from_ids _ _ _ _ Hp2). fold (point_ids w1).
    rewrite Hids1. rewrite <- (assoc_L (∪)), union_idemp_L. reflexivity. }
  split; [reflexivity|]. split; [exact Hids1|]. split; [|split; [exact Hids2|]].
  - intros k Hk. destruct (lookup_lt_is_Some_2 chunks1 k Hk) as [chunk Hchunk].
    destruct (upserted_lookup_point doc_id chunks1 0 points1 (book_points w) k chunk
                Hp1 Hchunk) as (p1 & Hl1 & Hid1 & Ht1 & _ & Hi1).
    destruct (upserted_lookup_point doc_id chunks1 0 points2 (book_points w1) k chunk
                Hp2 Hchunk) as (p2 & Hl2 & Hid2 & Ht2 & _ & Hi2).
    rewrite Z.add_0_l in *. exists p1, p2.
    rewrite Hb1, Hb2. repeat split; congruence.
  - unfold point_ids in Hids2. rewrite <- !size_dom, Hids2. reflexivity.
Qed.

End Index.

Section IndexExamples.

Lemma index_document_idempotent_witness :
  point_ids Example.indexed_once
  = point_ids Example.w0 ∪ {[ "intro_chunk_0"; "intro_chunk_1" ]}
  /\ point_ids Example.indexed_twice = point_ids Example.indexed_once
  /\ size (book_points Example.indexed_twice) = size (book_points Example.indexed_once).
Proof.
  destruct (index_document_idempotent Example.env "intro" "Intro"
              (Example.text_of_words 600) "/intro" None
              Example.w0 Example.indexed_once Example.indexed_twice 2 2)
    as (_ & Hids & _ & Hsame & Hsize); [vm_compute; reflexivity..|].
  split; [|split; assumption].
  rewrite Hids. f_equal.
Defined.

(** C9: a call of [index_document] that returns has chunked the content
    with [chunk_size = 500] and [overlap = 100], the defaults of
    [chunk_text]: it returns the number of these chunks and has stored the
    text of each of them.  It takes no chunking parameter, and the values
    of [Settings] play no part. *)
Theorem index_document_default_parameters (env : Env)
    (doc_id title content url : string) (chapter : option string)
    (w w' : World) (n : Z) :
  Rag.index_document env doc_id title content url chapter w = (Ok n, w') ->
  exists chunks : list string,
    Rag.chunk_text content 500 100 = Ok chunks
    /\ n = Py.len chunks
    /\ forall (k : nat) (chunk : string),
         chunks !! k = Some chunk ->
         exists p, book_points w' !! Rag.chunk_id doc_id (Z.of_nat k) = Some p
                   /\ p_text (pt_payload p) = chunk.
Proof.
  intros Hrun.
  apply index_document_run in Hrun as (chunks & points & Hc & -> & Hp & Hb).
  exists chunks. split; [exact Hc|]. split; [reflexivity|].
  intros k chunk Hk.
  destruct (upserted_lookup_point doc_id chunks 0 points (book_points w) k chunk Hp Hk)
    as (p & Hl & _ & Ht & _).
  rewrite Z.add_0_l in Hl. exists p. rewrite Hb. split; assumption.
Qed.

(** On a document of 600 words the count is the 2 of the defaults, not
    the 1 that the values of [Settings] would give. *)
Lemma index_document_default_parameters_witness :
  (exists chunks : list string,
     Rag.chunk_text (Example.text_of_words 600) 500 100 = Ok chunks
     /\ 2 = Py.len chunks
     /\ forall (k : nat) (chunk : string),
          chunks !! k = Some chunk ->
          exists p, book_points Example.indexed_once !! Rag.chunk_id "intro" (Z.of_nat k)
                    = Some p
                    /\ p_text (pt_payload p) = chunk)
  /\ (exists chunks : list string,
        Rag.chunk_text (Example.text_of_words 600) Settings.chunk_size
          Settings.chunk_overlap = Ok chunks
        /\ 1 = Py.len chunks).
Proof.
  split.
  - apply (index_document_default_parameters Example.env "intro" "Intro"
             (Example.text_of_words 600) "/intro" None Example.w0).
    vm_compute. reflexivity.
  - eexists. split; vm_compute; reflexivity.
Defined.

End IndexExamples.

(** ** [search_similar] *)

Section Search.

(** The list returned by [search_similar] is the answer of the search,
    entry by entry. *)
Lemma search_similar_run (env : Env) (query : string) (limit : Z)
    (score_threshold : float) (chapter_filter : option string)
    (w w' : World) (formatted_results : list ContextChunk) :
  Rag.search_similar env query limit score_threshold chapter_filter w
  = (Ok formatted_results, w') ->
  exists (t : nat) (c : gmap string PointStruct) (query_embedding : list float)
         (search_filter : option string) (results : list ScoredPoint),
    qdrant_search env t c query_embedding limit score_threshold search_filter = Ok results
    /\ formatted_results = Rag.format_result <$> results.
Proof.
  unfold Rag.search_similar. intros Hrun.
  apply bind_Ok in Hrun as ([] & w1 & _ & Hrun).
  apply bind_Ok in Hrun as (query_embedding & w2 & _ & Hrun).
  apply bind_Ok in Hrun as (results & w3 & Hsearch & Hrun).
  injection Hrun as <- <-.
  unfold Qdrant.search in Hsearch.
  apply bind_Ok in Hsearch as (c & w4 & _ & Hsearch).
  apply bind_Ok in Hsearch as (t & w5 & _ & Hsearch).
  unfold lift in Hsearch.
  destruct (qdrant_search env t c query_embedding limit score_threshold _)
    as [results'|] eqn:Hq; [|discriminate].
  injection Hsearch as -> _.
  do 5 eexists. split; [exact Hq|].
  rewrite (foldl_snoc Rag.format_result results []). reflexivity.
Qed.

(** C7: when the vector database honours the contract of its search, the
    list returned by [search_similar] is in descending order of score, has
    at most [limit] entries, and has no entry with a score below
    [score_threshold]. *)
Theorem search_similar_ranked (env : Env) (query : string) (limit : Z)
    (score_threshold : float) (chapter_filter : option string)
    (w w' : World) (formatted_results : list ContextChunk) :
  search_contract env ->
  Rag.search_similar env query limit score_threshold chapter_filter w
  = (Ok formatted_results, w') ->
  descending (c_score <$> formatted_results)
  /\ Py.len formatted_results <= limit
  /\ Forall (fun r => PrimFloat.leb score_threshold (c_score r) = true) formatted_results.
Proof.
  intros Hcontract Hrun.
  apply search_similar_run in Hrun as (t & c & v & f & results & Hq & ->).
  apply Hcontract in Hq as (Hsorted & Hlimit & Hthreshold).
  split; [|split].
  - rewrite <- list_fmap_compose. exact Hsorted.
  - unfold Py.len in *. rewrite length_fmap. exact Hlimit.
  - apply Forall_fmap. exact Hthreshold.
Qed.

(** The search of the small instance honours the contract. *)
Lemma example_search_contract : search_contract Example.env.
Proof.
  intros t c v limit thr f results. cbn. unfold Example.search.
  destruct (limit <? 0) eqn:Hlimit; [discriminate|]. apply Z.ltb_ge in Hlimit.
  intros [= <-]. unfold Example.hits. rewrite !filter_cons, filter_nil.
  assert (forall score id title,
            Example.matches thr f (Example.hit id title score) = true ->
            PrimFloat.leb thr score = true) as Hm.
  { intros score id title H. apply andb_prop in H as [H _]. exact H. }
  assert (forall l : list ScoredPoint, Py.len (take (Z.to_nat limit) l) <= limit) as Hlen.
  { intros l. unfold Py.len. rewrite length_take. lia. }
  split; [|split; [apply Hlen|]].
  - repeat case_decide; destruct (Z.to_nat limit) as [|[|[|n]]]; cbn;
      intros [|[|[|i]]] [|[|[|j]]] a b Hij Ha Hb; try lia; try discriminate;
      cbn in Ha, Hb; injection Ha as <-; injection Hb as <-; reflexivity.
  - apply Forall_take. repeat case_decide; repeat constructor; eauto.
Qed.

Lemma search_similar_ranked_witness :
  descending [0.875%float; 0.625%float]
  /\ Py.len [Rag.format_result (Example.hit "intro" "Intro" 0.875%float);
             Rag.format_result (Example.hit "overview" "Overview" 0.625%float)] <= 5
  /\ Forall (fun r => PrimFloat.leb 0.5%float (c_score r) = true)
       [Rag.format_result (Example.hit "intro" "Intro" 0.875%float);
        Rag.format_result (Example.hit "overview" "Overview" 0.625%float)].
Proof.
  exact (search_similar_ranked Example.env "What is RAG?" 5 0.5%float (Some "Chapter 1")
           Example.w0
           (Rag.search_similar Example.env "What is RAG?" 5 0.5%float (Some "Chapter 1")
              Example.w0).2
           _ example_search_contract eq_refl).
Defined.

End Search.

(** ** The chat routes *)

Section ChatRoutes.

(** C4, as the code has it: the [HTTPException] with status 404 that
    [chat] raises when the search returns no chunk is raised inside the
    [try], is caught by its [except Exception] and leaves the route as an
    [HTTPException] with status 500, the status of a failure. *)
Theorem chat_not_found_is_reported_as_500 (agent : AgentService) (env : Env)
    (request : Chat.ChatRequest) (w w1 : World) :
  Rag.search_similar env (Chat.question request) (Chat.top_k request)
    Rag.default_score_threshold (Chat.chapter_filter request) w = (Ok [], w1) ->
  Chat.chat agent env request w
  = (Raise (HTTPException 500
       "Error processing request: 404: No relevant content found. The book may not be indexed yet."),
     w1).
Proof.
  intros Hsearch. unfold Chat.chat, try_except.
  rewrite (bind_Ok_run _ _ _ _ _ Hsearch). reflexivity.
Qed.

Lemma chat_not_found_is_reported_as_500_witness :
  (Chat.chat Example.agent Example.env
     {| Chat.question := "What is RAG?"; Chat.top_k := 3;
        Chat.chapter_filter := Some "Chapter 9" |} Example.w0).1
  = Raise (HTTPException 500
      "Error processing request: 404: No relevant content found. The book may not be indexed yet.").
Proof.
  rewrite (chat_not_found_is_reported_as_500 Example.agent Example.env
             {| Chat.question := "What is RAG?"; Chat.top_k := 3;
                Chat.chapter_filter := Some "Chapter 9" |}
             Example.w0
             (Rag.search_similar Example.env "What is RAG?" 3 Rag.default_score_threshold
                (Some "Chapter 9") Example.w0).2 eq_refl).
  reflexivity.
Defined.

(** The loop over the stream yields token events only. *)
Lemma stream_tokens_tokens (stream : Py.gen string) :
  exists tokens : list string, (Chat.stream_tokens stream).1 = Chat.StreamToken <$> tokens.
Proof.
  induction stream as [|token rest [tokens IH]|e].
  - exists []. reflexivity.
  - exists (token :: tokens). cbn. destruct (Chat.stream_tokens rest) as [events r].
    cbn in *. rewrite IH. reflexivity.
  - exists []. reflexivity.
Qed.

(** An error event after tokens is the last event. *)
Lemma error_after_tokens_is_last (tokens : list string) (rest : list Chat.event)
    (i : nat) (msg : string) :
  ((Chat.StreamToken <$> tokens) ++ rest) !! i = Some (Chat.StreamError msg) ->
  (forall (j : nat) (m : string),
     rest !! j = Some (Chat.StreamError m) -> S j = length rest) ->
  S i = length ((Chat.StreamToken <$> tokens) ++ rest).
Proof.
  intros Hi Hrest. rewrite length_app.
  apply lookup_app_Some in Hi as [Hi | [Hge Hi]].
  - apply list_lookup_fmap_Some in Hi as (token & Heq & _). discriminate.
  - apply Hrest in Hi. lia.
Qed.

(** C5: the events of a streaming request are token events, followed
    either by one sources event and one done event, or by one error
    event.  So they match [token* sources? done?] with an error, if any, in
    the last place: no event follows an error event. *)
Theorem generate_event_order (agent : AgentService) (env : Env)
    (request : Chat.ChatRequest) (w : World) :
  (exists (tokens : list string) (rest : list Chat.event),
     (Chat.generate agent env request w).1 = (Chat.StreamToken <$> tokens) ++ rest
     /\ ((exists sources, rest = [Chat.StreamSources sources; Chat.StreamDone])
         \/ (exists msg, rest = [Chat.StreamError msg])))
  /\ (forall (i : nat) (msg : string),
        (Chat.generate agent env request w).1 !! i = Some (Chat.StreamError msg) ->
        S i = length (Chat.generate agent env request w).1).
Proof.
  assert (exists (tokens : list string) (rest : list Chat.event),
            (Chat.generate agent env request w).1 = (Chat.StreamToken <$> tokens) ++ rest
            /\ ((exists sources, rest = [Chat.StreamSources sources; Chat.StreamDone])
                \/ (exists msg, rest = [Chat.StreamError msg])))
    as (tokens & rest & Hevents & Hrest).
  { unfold Chat.generate.
    destruct (Rag.search_similar _ _ _ _ _ w) as [[context_chunks|e] w1];
      [|exists []; eexists; split; [reflexivity | right; eexists; reflexivity]].
    destruct context_chunks as [|chunk context_chunks];
      [exists []; eexists; split; [reflexivity | right; eexists; reflexivity]|].
    destruct (Agent.generate_response_stream _ _ _ _ w1) as [[stream|e] w2];
      [|exists []; eexists; split; [reflexivity | right; eexists; reflexivity]].
    destruct (stream_tokens_tokens stream) as [tokens Htokens].
    destruct (Chat.stream_tokens stream) as [events [e|]]; cbn in Htokens; subst events.
    - exists tokens; eexists; split; [reflexivity | right; eexists; reflexivity].
    - exists tokens; eexists; split; [reflexivity | left; eexists; reflexivity]. }
  split; [exists tokens, rest; split; assumption|].
  intros i msg Hi. rewrite Hevents in *.
  apply (error_after_tokens_is_last tokens rest i msg Hi).
  intros j m Hj. destruct Hrest as [[sources ->] | [msg' ->]].
  - destruct j as [|[|j]]; discriminate.
  - destruct j as [|j]; [reflexivity | discriminate].
Qed.

Lemma sources_of_entries (context_chunks : list ContextChunk) :
  Chat.source_of_entry <$>
    ((fun chunk =>
        {| Agent.s_title := c_title chunk;
           Agent.s_url := c_url chunk;
           Agent.s_chapter := c_chapter chunk;
           Agent.s_relevance_score := c_score chunk |}) <$> context_chunks)
  = Chat.source_of_chunk <$> context_chunks.
Proof. rewrite <- list_fmap_compose. reflexivity. Qed.

(** C8: once the search has returned, [chat_with_selected_text] builds the
    prompt from the list that has the selected text first and the
    retrieved chunks after it, whatever their scores; the entry of the
    selected text has the title "Selected Text" and the score 1.0, and the
    sources of the response are those of that list, in its order. *)
Theorem selected_text_is_pinned (agent : AgentService) (env : Env)
    (question selected_text page_url : string) (w w1 : World)
    (context_chunks : list ContextChunk) :
  Rag.search_similar env question 2 Rag.default_score_threshold None w
  = (Ok context_chunks, w1) ->
  Chat.chat_with_selected_text agent env question selected_text page_url w
  = match chat_completions_create env (calls w1) agent (system_prompt agent)
            (Agent.create_rag_prompt env question
               (Chat.selected_context selected_text page_url :: context_chunks)) with
    | Ok answer =>
        (Ok {| Chat.answer := answer;
               Chat.sources :=
                 Chat.source_of_chunk <$>
                   (Chat.selected_context selected_text page_url :: context_chunks) |},
         {| qdrant := qdrant w1; stdout := stdout w1; calls := S (S (calls w1)) |})
    | Raise e =>
        (Raise (HTTPException 500 ("Error processing request: " +:+ exn_str e)),
         {| qdrant := qdrant w1; stdout := stdout w1; calls := S (calls w1) |})
    end
  /\ c_title (Chat.selected_context selected_text page_url) = "Selected Text"
  /\ c_score (Chat.selected_context selected_text page_url) = 1%float
  /\ Agent.context_parts env 0
       (Chat.selected_context selected_text page_url :: context_chunks)
     = Agent.context_part env 0 (Chat.selected_context selected_text page_url)
       :: Agent.context_parts env 1 context_chunks.
Proof.
  intros Hsearch. split; [|repeat split].
  unfold Chat.chat_with_selected_text, try_except.
  rewrite (bind_Ok_run _ _ _ _ _ Hsearch).
  unfold Agent.generate_response_with_metadata, Agent.generate_response, Chat.all_context.
  rewrite !bind_run. cbn [tick lift app].
  destruct (chat_completions_create env (calls w1) agent (system_prompt agent) _)
    as [answer|e]; [|reflexivity].
  lazy beta iota zeta delta [mbind M_bind mret M_ret utcnow tick Agent.r_answer Agent.r_sources].
  rewrite sources_of_entries. reflexivity.
Qed.

Lemma selected_text_is_pinned_witness :
  (Chat.chat_with_selected_text Example.agent Example.env
     "What does this mean?" "retrieval augmented" "/chapter-1/what-is-rag" Example.w0).1
  = Ok {| Chat.answer := "RAG retrieves, then generates.";
          Chat.sources :=
            [ {| Chat.page_title := "Selected Text";
                 Chat.page_url := "/chapter-1/what-is-rag";
                 Chat.section := "User Selection";
                 Chat.relevance_score := 1%float |};
              {| Chat.page_title := "Intro";
                 Chat.page_url := "/intro";
                 Chat.section := "Chapter 1";
                 Chat.relevance_score := 0.875%float |};
              {| Chat.page_title := "Overview";
                 Chat.page_url := "/overview";
                 Chat.section := "Chapter 1";
                 Chat.relevance_score := 0.625%float |} ] |}.
Proof.
  rewrite (proj1 (selected_text_is_pinned Example.agent Example.env
                    "What does this mean?" "retrieval augmented" "/chapter-1/what-is-rag"
                    Example.w0
                    (Rag.search_similar Example.env "What does this mean?" 2
                       Rag.default_score_threshold None Example.w0).2
                    (map Rag.format_result Example.hits) eq_refl)).
  reflexivity.
Defined.

End ChatRoutes.

(** ** The two indexers *)

Section Indexers.

(** A file of the route that is indexed is counted, with its chunks. *)
Lemma perform_indexing_loop_indexed (env : Env) (md_file : MdFile) (rest : list MdFile)
    (total_chunks : Z) (indexed_files : list Admin.IndexedFile) (w w1 : World) (n : Z) :
  Admin.index_file env md_file w = (Ok n, w1) ->
  Admin.perform_indexing_loop env (md_file :: rest) total_chunks indexed_files w
  = Admin.perform_indexing_loop env rest (total_chunks + n)
      (indexed_files ++ [{| Admin.file := name md_file; Admin.chunks := n |}]) w1.
Proof.
  intros Hfile. cbn [Admin.perform_indexing_loop]. rewrite bind_run.
  unfold try_except. rewrite (bind_Ok_run _ _ _ _ _ Hfile). reflexivity.
Qed.

(** A file of the route that fails is reported on the standard output and
    skipped; the loop goes on with the counters as they were. *)
Lemma perform_indexing_loop_failed (env : Env) (md_file : MdFile) (rest : list MdFile)
    (total_chunks : Z) (indexed_files : list Admin.IndexedFile) (w w1 : World) (e : exn) :
  Admin.index_file env md_file w = (Raise e, w1) ->
  Admin.perform_indexing_loop env (md_file :: rest) total_chunks indexed_files w
  = Admin.perform_indexing_loop env rest total_chunks indexed_files
      {| qdrant := qdrant w1;
         stdout := stdout w1 ++ [ErrorIndexing (path md_file) (exn_str e)];
         calls := calls w1 |}.
Proof.
  intros Hfile. cbn [Admin.perform_indexing_loop]. rewrite bind_run.
  unfold try_except. rewrite (bind_Raise_run _ _ _ _ _ Hfile). reflexivity.
Qed.

(** The loop of the route never raises, whatever happens to the files. *)
Lemma perform_indexing_loop_returns (env : Env) (md_files : list MdFile) :
  forall (total_chunks : Z) (indexed_files : list Admin.IndexedFile) (w : World),
  exists (r : Z * list Admin.IndexedFile) (w' : World),
    Admin.perform_indexing_loop env md_files total_chunks indexed_files w = (Ok r, w').
Proof.
  induction md_files as [|md_file rest IH]; intros total_chunks indexed_files w.
  - eexists _, _. reflexivity.
  - destruct (Admin.index_file env md_file w) as [[n|e] w1] eqn:Hfile.
    + rewrite (perform_indexing_loop_indexed _ _ _ _ _ _ _ _ Hfile). apply IH.
    + rewrite (perform_indexing_loop_failed _ _ _ _ _ _ _ _ Hfile). apply IH.
Qed.

(** The report of the route never counts a failure. *)
Lemma reindex_content_failed_count (env : Env) (request : Admin.ReindexRequest)
    (w w' : World) (response : Admin.ReindexResponse)
    (task : option (M (Z * list Admin.IndexedFile))) :
  Admin.reindex_content env request w = (Ok (response, task), w') ->
  Admin.failed_count response = 0.
Proof.
  unfold Admin.reindex_content, try_except.
  destruct (rglob_md env _) as [md_files|]; [|discriminate].
  destruct (Admin.background request).
  - intros [= <- _ _]. reflexivity.
  - rewrite bind_run.
    destruct (Admin.perform_indexing env md_files w) as [[[total_chunks indexed_files]|e] w1];
      [|discriminate].
    intros [= <- _ _]. reflexivity.
Qed.

(** C2, as the code has it: over three files, the second of which cannot
    be decoded, the route in the foreground reports the failure on the
    standard output, skips the file and indexes the other two; its report
    has [indexed_count = 2] and the chunks of the two, and
    [failed_count = 0]: the report never counts a failure. *)
Theorem reindex_content_one_failure_of_three :
  (Admin.reindex_content Example.env
     {| Admin.docs_path := None; Admin.background := false |} Example.w0).1
  = Ok ({| Admin.status := "completed";
           Admin.message := "Successfully indexed 2 files with 2 chunks";
           Admin.indexed_count := 2;
           Admin.failed_count := 0;
           Admin.details :=
             Some [ {| Admin.file := "what-is-rag.md"; Admin.chunks := 1 |};
                    {| Admin.file := "glossary.md"; Admin.chunks := 1 |} ] |},
        None)
  /\ stdout (Admin.reindex_content Example.env
               {| Admin.docs_path := None; Admin.background := false |} Example.w0).2
     = [ CreatedCollection "book_chunks";
         ErrorIndexing "../book/docs/chapter-1/broken.md"
           "'utf-8' codec can't decode byte 0xff in position 0" ].
Proof. split; vm_compute; reflexivity. Qed.

(** A file of the script that is short is skipped. *)
Lemma index_loop_skipped (env : Env) (md_file : MdFile) (content : string)
    (rest : list MdFile) (total_chunks indexed_files : Z) (w : World) :
  read md_file = Ok content ->
  Py.slen (Py.strip content) < 100 ->
  Script.index_loop env (md_file :: rest) total_chunks indexed_files w
  = Script.index_loop env rest total_chunks indexed_files
      {| qdrant := qdrant w;
         stdout := stdout w ++ [Processing (name md_file); Skipped];
         calls := calls w |}.
Proof.
  intros Hread Hshort. apply Z.ltb_lt in Hshort.
  cbn [Script.index_loop]. rewrite bind_run. unfold try_except.
  rewrite bind_run. cbn [print]. rewrite bind_run. unfold lift at 1. rewrite Hread, Hshort.
  rewrite bind_run. cbn. rewrite <- app_assoc. reflexivity.
Qed.

(** C10: a file whose content, stripped, has fewer than 100 characters
    only makes the script print that it is processed and skipped: the
    loop goes on with both counters and the collections as they were, and
    no error is printed.  The route has no such test: it counts the file
    and its chunks whenever [index_document] returns for its content. *)
Theorem short_file_skipped_by_script_only (env : Env) (md_file : MdFile)
    (content : string) (rest : list MdFile) (w : World) :
  read md_file = Ok content ->
  Py.slen (Py.strip content) < 100 ->
  (forall total_chunks indexed_files : Z,
     Script.index_loop env (md_file :: rest) total_chunks indexed_files w
     = Script.index_loop env rest total_chunks indexed_files
         {| qdrant := qdrant w;
            stdout := stdout w ++ [Processing (name md_file); Skipped];
            calls := calls w |})
  /\ (forall (total_chunks : Z) (indexed_files : list Admin.IndexedFile)
             (n : Z) (w1 : World),
        Rag.index_document env (stem md_file) (Meta.title_of md_file) content
          ("/" +:+ Meta.url_path_of md_file) (Some (Meta.chapter_of md_file)) w
        = (Ok n, w1) ->
        Admin.perform_indexing_loop env (md_file :: rest) total_chunks indexed_files w
        = Admin.perform_indexing_loop env rest (total_chunks + n)
            (indexed_files ++ [{| Admin.file := name md_file; Admin.chunks := n |}]) w1).
Proof.
  intros Hread Hshort. split.
  - intros total_chunks indexed_files. apply (index_loop_skipped _ _ content); assumption.
  - intros total_chunks indexed_files n w1 Hdoc.
    apply perform_indexing_loop_indexed.
    unfold Admin.index_file, lift. rewrite bind_run, Hread. exact Hdoc.
Qed.

Lemma short_file_skipped_by_script_only_witness :
  (Script.index_loop Example.env
     [Example.md "appendix" "glossary" (Ok "RAG: see chapter one")] 0 0 Example.w0).1
  = Ok (0, 0)
  /\ (Admin.perform_indexing_loop Example.env
        [Example.md "appendix" "glossary" (Ok "RAG: see chapter one")] 0 [] Example.w0).1
     = Ok (1, [{| Admin.file := "glossary.md"; Admin.chunks := 1 |}]).
Proof.
  destruct (short_file_skipped_by_script_only Example.env
              (Example.md "appendix" "glossary" (Ok "RAG: see chapter one"))
              "RAG: see chapter one" [] Example.w0 eq_refl)
    as [Hscript Hroute]; [vm_compute; reflexivity|].
  split.
  - rewrite Hscript. reflexivity.
  - rewrite (Hroute 0 [] 1
               (Rag.index_document Example.env "glossary" "Glossary" "RAG: see chapter one"
                  "/appendix/glossary" (Some "Introduction") Example.w0).2).
    + reflexivity.
    + vm_compute. reflexivity.
Defined.

End Indexers.

(** ** More on [chunk_text] *)

Section ChunkTextMore.

Lemma split_go_blank (s : string) : blank s -> Py.split_go "" s = [].
Proof.
  induction s as [|c s IH]; intros Hb; [reflexivity|].
  destruct Hb as [Hc Hb]. cbn. rewrite Hc. cbn. auto.
Qed.

(** The words of the segment of a start: the slice of the words of the
    text. *)
Lemma split_segment (text : string) (chunk_size i : Z) :
  Py.split (segment (Py.split text) chunk_size i)
  = Py.slice (Py.split text) i (i + chunk_size).
Proof. unfold segment. apply split_join, segment_words. Qed.

Lemma slice_length {A} (l : list A) (i n : Z) :
  0 <= i -> 0 <= n ->
  Py.len (Py.slice l i (i + n)) = Z.max 0 (Z.min n (Py.len l - i)).
Proof.
  intros Hi Hn. unfold Py.slice, Py.adjust_index, Py.len.
  destruct (i <? 0) eqn:E1; [apply Z.ltb_lt in E1; lia|].
  destruct (i + n <? 0) eqn:E2; [apply Z.ltb_lt in E2; lia|].
  rewrite length_take, length_drop. lia.
Qed.

(** The chunk of index [k] is the segment of the start [k * step]. *)
Lemma chunk_text_lookup (text : string) (chunk_size overlap : Z)
    (chunks : list string) (k : nat) (chunk : string) :
  0 < chunk_size -> overlap < chunk_size ->
  Rag.chunk_text text chunk_size overlap = Ok chunks ->
  chunks !! k = Some chunk ->
  chunk = segment (Py.split text) chunk_size (Z.of_nat k * (chunk_size - overlap))
  /\ 0 <= Z.of_nat k * (chunk_size - overlap) < Py.len (Py.split text).
Proof.
  intros Hcs Hstep Hrun Hk.
  rewrite chunk_text_all_kept in Hrun by assumption. injection Hrun as <-.
  rewrite <- list_fmap_compose in Hk.
  apply list_lookup_fmap_Some in Hk as (j & -> & Hj).
  apply lookup_seq in Hj as [-> Hlt]. cbn. split; [reflexivity|].
  apply starts_inside; unfold Py.len in *; lia.
Qed.

(** Inside the bounds, a slice is a [take] of a [drop]. *)
Lemma slice_take_drop {A} (l : list A) (i n : Z) :
  0 <= i -> 0 <= n ->
  Py.slice l i (i + n) = take (Z.to_nat n) (drop (Z.to_nat i) l).
Proof.
  intros Hi Hn. unfold Py.slice, Py.adjust_index, Py.len.
  destruct (i <? 0) eqn:E1; [apply Z.ltb_lt in E1; lia|].
  destruct (i + n <? 0) eqn:E2; [apply Z.ltb_lt in E2; lia|].
  destruct (decide (i + n <= Z.of_nat (length l))) as [Hin|Hout].
  - rewrite (Z.min_l i), (Z.min_l (i + n)) by lia. do 2 f_equal. lia.
  - rewrite (Z.min_r (i + n)) by lia.
    destruct (decide (i <= Z.of_nat (length l))) as [Hi'|Hi'].
    + rewrite (Z.min_l i) by lia.
      rewrite !take_ge by (rewrite length_drop; lia). reflexivity.
    + rewrite (Z.min_r i) by lia. rewrite !drop_ge by lia.
      rewrite !take_nil. reflexivity.
Qed.

(** X1: with [0 < chunk_size] and [overlap < chunk_size], every chunk
    returned by [chunk_text] has at least one and at most [chunk_size]
    words, and is these words joined by single spaces: the line breaks,
    tabs and runs of spaces of the text are not kept. *)
Theorem chunk_text_chunks_normalized (text : string) (chunk_size overlap : Z)
    (chunks : list string) :
  0 < chunk_size -> overlap < chunk_size ->
  Rag.chunk_text text chunk_size overlap = Ok chunks ->
  Forall (fun chunk =>
            0 < Py.len (Py.split chunk) <= chunk_size
            /\ Py.join " " (Py.split chunk) = chunk) chunks.
Proof.
  intros Hcs Hstep Hrun. apply Forall_lookup. intros k chunk Hk.
  destruct (chunk_text_lookup _ _ _ _ _ _ Hcs Hstep Hrun Hk) as [-> Hi].
  rewrite split_segment. split.
  - rewrite slice_length by lia. lia.
  - reflexivity.
Qed.

Lemma chunk_text_chunks_normalized_witness :
  Forall (fun chunk =>
            0 < Py.len (Py.split chunk) <= 3
            /\ Py.join " " (Py.split chunk) = chunk)
    ["a b c"; "c d e"; "e"].
Proof.
  apply (chunk_text_chunks_normalized "a b  c d
 e" 3 1); [lia | lia | reflexivity].
Defined.

(** X2: with [0 <= overlap < chunk_size], two chunks that follow each
    other overlap as asked: the first [overlap] words of the later one
    are the words of the earlier one after its first
    [chunk_size - overlap]. *)
Theorem chunk_text_consecutive_overlap (text : string) (chunk_size overlap : Z)
    (chunks : list string) (k : nat) (chunk next : string) :
  0 <= overlap -> overlap < chunk_size ->
  Rag.chunk_text text chunk_size overlap = Ok chunks ->
  chunks !! k = Some chunk ->
  chunks !! S k = Some next ->
  take (Z.to_nat overlap) (Py.split next)
  = drop (Z.to_nat (chunk_size - overlap)) (Py.split chunk).
Proof.
  intros Hov Hstep Hrun Hk Hnext.
  assert (0 < chunk_size) as Hcs by lia.
  destruct (chunk_text_lookup _ _ _ _ _ _ Hcs Hstep Hrun Hk) as [-> Hi].
  destruct (chunk_text_lookup _ _ _ _ _ _ Hcs Hstep Hrun Hnext) as [-> Hj].
  rewrite !split_segment, !slice_take_drop by lia.
  set (step := chunk_size - overlap) in *.
  rewrite take_take, Nat.min_l by lia.
  replace (Z.to_nat chunk_size) with (Z.to_nat step + Z.to_nat overlap)%nat
    by (unfold step; lia).
  rewrite <- take_drop_commute, drop_drop. do 2 f_equal. lia.
Qed.

Lemma chunk_text_consecutive_overlap_witness :
  take (Z.to_nat 1) (Py.split "c d e") = drop (Z.to_nat (3 - 1)) (Py.split "a b c").
Proof.
  apply (chunk_text_consecutive_overlap "a b c d e" 3 1 ["a b c"; "c d e"; "e"] 0);
    [lia | lia | reflexivity..].
Defined.

(** X3: with [0 <= overlap], a text that is not blank and has at most
    [chunk_size - overlap] words gives one chunk: its words joined by
    single spaces. *)
Theorem chunk_text_single_chunk (text : string) (chunk_size overlap : Z) :
  0 <= overlap ->
  0 < Py.len (Py.split text) <= chunk_size - overlap ->
  Rag.chunk_text text chunk_size overlap = Ok [Py.join " " (Py.split text)].
Proof.
  intros Hov [Hpos Hfit]. rewrite chunk_text_all_kept by lia.
  assert (ceil_div (Py.len (Py.split text)) (chunk_size - overlap) = 1) as ->.
  { pose proof (ceil_div_spec (Py.len (Py.split text)) (chunk_size - overlap)
                  ltac:(lia)). nia. }
  pose proof (slice_take_drop (Py.split text) 0 chunk_size ltac:(lia) ltac:(lia))
    as Hslice.
  rewrite Z.add_0_l, drop_0, take_ge in Hslice by (unfold Py.len in *; lia).
  change (Z.to_nat 1) with 1%nat. cbn [seq fmap list_fmap]. unfold segment.
  rewrite Z.mul_0_l, Z.add_0_l, Hslice. reflexivity.
Qed.

Lemma chunk_text_single_chunk_witness :
  Rag.chunk_text "  RAG:	see
chapter one " 500 100 = Ok ["RAG: see chapter one"].
Proof.
  apply (chunk_text_single_chunk "  RAG:	see
chapter one " 500 100); [vm_compute; congruence | vm_compute; split; congruence].
Defined.

Lemma chunk_text_blank_positive_step (text : string) (chunk_size overlap : Z) :
  blank text -> overlap < chunk_size ->
  Rag.chunk_text text chunk_size overlap = Ok [].
Proof.
  intros Hblank Hstep. rewrite chunk_text_positive_step by assumption.
  unfold Py.split. rewrite split_go_blank by assumption.
  replace (ceil_div (Py.len []) (chunk_size - overlap)) with 0; [reflexivity|].
  symmetry. unfold ceil_div, Py.len. cbn [length]. apply Z.div_small. lia.
Qed.

(** X4: on a text of whitespace only, and on the empty text, [chunk_text]
    returns the empty list, unless [overlap = chunk_size]: then it raises
    the [ValueError] of the range, as on any text. *)
Theorem chunk_text_blank (text : string) (chunk_size overlap : Z) :
  blank text ->
  Rag.chunk_text text chunk_size overlap
  = if decide (overlap = chunk_size)
    then Raise (ValueError "range() arg 3 must not be zero")
    else Ok [].
Proof.
  intros Hblank. case_decide as Heq.
  - subst. unfold Rag.chunk_text. rewrite Z.sub_diag, range_zero. reflexivity.
  - destruct (Z.lt_trichotomy overlap chunk_size) as [Hlt|[?|Hgt]]; [|contradiction|].
    + apply chunk_text_blank_positive_step; assumption.
    + unfold Rag.chunk_text. rewrite range_negative by (unfold Py.len; lia).
      reflexivity.
Qed.

Lemma chunk_text_blank_witness :
  Rag.chunk_text "  
	" 500 100 = Ok [].
Proof.
  apply (chunk_text_blank "  
	" 500 100). cbn. auto.
Defined.

End ChunkTextMore.

(** ** More on the indexing of a document *)

Section IndexMore.

(** [ensure_collection_exists] leaves the other collections alone. *)
Lemma ensure_collection_exists_frame (w w1 : World) (r : result unit) :
  Rag.ensure_collection_exists w = (r, w1) ->
  r = Ok tt
  /\ book_points w1 = book_points w
  /\ is_Some (qdrant w1 !! Rag.collection_name)
  /\ calls w1 = calls w
  /\ forall other, other <> Rag.collection_name -> qdrant w1 !! other = qdrant w !! other.
Proof.
  unfold Rag.ensure_collection_exists, try_except, book_points.
  rewrite bind_run. unfold Qdrant.get_collection.
  destruct (qdrant w !! Rag.collection_name) as [c|] eqn:Hc; cbn.
  - intros [= <- <-]. rewrite Hc. eauto 10.
  - intros [= <- <-]. cbn. rewrite lookup_insert_eq.
    repeat split; eauto. intros other Hother. apply lookup_insert_ne. congruence.
Qed.





(** X7: a call of [index_document] that returns [n] has changed the
    points of the ids ["{doc_id}_chunk_0"] to ["{doc_id}_chunk_{n-1}"]
    only: every other point is as before, so the chunks that an earlier,
    longer version of the document left under higher indices stay in the
    collection. *)
Theorem index_document_keeps_other_points (env : Env)
    (doc_id title content url : string) (chapter : option string)
    (w w' : World) (n : Z) (id : string) :
  Rag.index_document env doc_id title content url chapter w = (Ok n, w') ->
  (forall k : Z, 0 <= k < n -> id <> Rag.chunk_id doc_id k) ->
  book_points w' !! id = book_points w !! id.
Proof.
  intros Hrun Hid.
  apply index_document_run in Hrun as (chunks & points & _ & -> & Hpoints & ->).
  apply upserted_lookup_other. rewrite (points_from_ids _ _ _ _ Hpoints).
  intros Hin. apply list_elem_of_fmap in Hin as (k & -> & Hk).
  apply elem_of_seq in Hk. rewrite Z.add_0_l in Hid.
  apply (Hid (Z.of_nat k)); [unfold Py.len; lia | reflexivity].
Qed.

Lemma index_document_blank_run (env : Env) (doc_id title content url : string)
    (chapter : option string) (w : World) :
  blank content ->
  exists w' : World,
    Rag.index_document env doc_id title content url chapter w = (Ok 0, w')
    /\ book_points w' = book_points w
    /\ calls w' = calls w.
Proof.
  intros Hblank. unfold Rag.index_document.
  destruct (ensure_collection_exists_run w) as (w1 & Hens & Hcoll & Hcalls).
  rewrite (bind_Ok_run _ _ _ _ _ Hens).
  rewrite (chunk_text_blank_positive_step content _ _ Hblank)
    by (unfold Rag.default_chunk_size, Rag.default_overlap; lia).
  rewrite bind_run. cbn [lift]. rewrite bind_run. cbn [Rag.index_points mret M_ret].
  unfold Qdrant.upsert, Qdrant.get_collection. rewrite !bind_run, Hcoll.
  eexists. split; [reflexivity|]. split; [|exact Hcalls].
  unfold book_points at 1. cbn. rewrite lookup_insert_eq. reflexivity.
Qed.

Lemma index_document_keeps_other_points_witness :
  book_points
    (Rag.index_document Example.env "intro" "Intro" "now much shorter" "/intro" None
       Example.indexed_once).2 !! "intro_chunk_1"
  = book_points Example.indexed_once !! "intro_chunk_1".
Proof.
  apply (index_document_keeps_other_points Example.env "intro" "Intro"
           "now much shorter" "/intro" None Example.indexed_once _ 1).
  - vm_compute. reflexivity.
  - intros k Hk. assert (k = 0) as -> by lia. discriminate.
Defined.

(** X8: on a content of whitespace only, [index_document] returns 0
    without asking the embedding provider: no call is made and the points
    of the collection are as before. *)
Theorem index_document_blank (env : Env) (doc_id title content url : string)
    (chapter : option string) (w : World) :
  blank content ->
  (Rag.index_document env doc_id title content url chapter w).1 = Ok 0
  /\ book_points (Rag.index_document env doc_id title content url chapter w).2
     = book_points w
  /\ calls (Rag.index_document env doc_id title content url chapter w).2 = calls w.
Proof.
  intros Hblank.
  destruct (index_document_blank_run env doc_id title content url chapter w Hblank)
    as (w' & -> & Hpoints & Hcalls).
  auto.
Qed.

Lemma index_document_blank_witness :
  (Rag.index_document Example.flaky_env "empty" "Empty" "
  " "/empty" None
     Example.indexed_once).1 = Ok 0
  /\ book_points
       (Rag.index_document Example.flaky_env "empty" "Empty" "
  " "/empty" None
          Example.indexed_once).2
     = book_points Example.indexed_once
  /\ calls
       (Rag.index_document Example.flaky_env "empty" "Empty" "
  " "/empty" None
          Example.indexed_once).2
     = calls Example.indexed_once.
Proof.
  apply (index_document_blank Example.flaky_env "empty" "Empty" "
  " "/empty" None
           Example.indexed_once).
  cbn. auto.
Defined.

(** X9: [search_similar] writes no point, whether it returns or raises:
    the points of the collection of the book are those of before the
    call, and so are the other collections. *)
Theorem search_similar_writes_nothing (env : Env) (query : string) (limit : Z)
    (score_threshold : float) (chapter_filter : option string) (w : World) :
  book_points (Rag.search_similar env query limit score_threshold chapter_filter w).2
  = book_points w
  /\ forall other, other <> Rag.collection_name ->
       qdrant (Rag.search_similar env query limit score_threshold chapter_filter w).2
         !! other
       = qdrant w !! other.
Proof.
  unfold Rag.search_similar.
  destruct (Rag.ensure_collection_exists w) as [r w1] eqn:Hens.
  destruct (ensure_collection_exists_frame w w1 r Hens) as (-> & Hb & _ & _ & Hother).
  rewrite (bind_Ok_run _ _ _ _ _ Hens).
  unfold Rag.create_embedding. rewrite !bind_run. cbn [tick lift].
  destruct (embeddings_create env (calls w1) Rag.embedding_model query) as [v|e];
    [|cbn; split; [exact Hb | exact Hother]].
  rewrite bind_run. unfold Qdrant.search, Qdrant.get_collection.
  rewrite !bind_run. cbn [qdrant].
  destruct (qdrant w1 !! Rag.collection_name) as [c|] eqn:Hc;
    [|cbn; split; [exact Hb | exact Hother]].
  rewrite bind_run. cbn [tick lift].
  destruct (qdrant_search env _ c v limit score_threshold _);
    cbn; (split; [|exact Hother]); unfold book_points in *; cbn;
    rewrite <- Hb; reflexivity.
Qed.

End IndexMore.

(** ** More on the agent and the chat routes *)

Section ChatMore.

(** X10: [_stream_response] yields the contents of the deltas that are
    neither [None] nor empty, in their order, and ends as the stream of
    the provider ends: an exception of the provider is passed on after
    the tokens before it. *)
Theorem stream_response_tokens (response : Py.gen (option string)) :
  gen_values (Agent._stream_response response) = omap delta_token (gen_values response)
  /\ gen_failure (Agent._stream_response response) = gen_failure response
  /\ Forall (fun token => token <> "") (gen_values (Agent._stream_response response)).
Proof.
  induction response as [|delta rest (IHv & IHf & IHn)|e].
  - cbn. repeat split. constructor.
  - destruct delta as [content|]; cbn;
      [|split; [exact IHv | split; [exact IHf | exact IHn]]].
    destruct (decide (content = "")); cbn;
      [split; [exact IHv | split; [exact IHf | exact IHn]]|].
    split; [f_equal; exact IHv | split; [exact IHf | constructor; assumption]].
  - cbn. repeat split. constructor.
Qed.

Lemma stream_response_run (response : Py.gen (option string)) :
  gen_values (Agent._stream_response response) = omap delta_token (gen_values response)
  /\ gen_failure (Agent._stream_response response) = gen_failure response.
Proof.
  induction response as [|delta rest (IHv & IHf)|e].
  - cbn. split; reflexivity.
  - destruct delta as [content|]; cbn; [|split; [exact IHv | exact IHf]].
    destruct (decide (content = "")); cbn; [split; [exact IHv | exact IHf]|].
    split; [f_equal; exact IHv | exact IHf].
  - cbn. split; reflexivity.
Qed.

Lemma stream_tokens_run (stream : Py.gen string) :
  Chat.stream_tokens stream = (Chat.StreamToken <$> gen_values stream, gen_failure stream).
Proof.
  induction stream as [|token rest IH|e]; cbn; [reflexivity| |reflexivity].
  rewrite IH. reflexivity.
Qed.


(** X12: when the search has found chunks and the chat provider has
    opened its stream, the events of [generate] are a token event for
    each delta with a content, in the order of the stream, followed by
    the sources of exactly the chunks found and the done event, or, when
    the stream breaks, by the error event of its exception. *)
Theorem generate_events (agent : AgentService) (env : Env)
    (request : Chat.ChatRequest) (w w1 : World)
    (context_chunks : list ContextChunk) (response : Py.gen (option string)) :
  Rag.search_similar env (Chat.question request) (Chat.top_k request)
    Rag.default_score_threshold (Chat.chapter_filter request) w
  = (Ok context_chunks, w1) ->
  context_chunks <> [] ->
  chat_completions_stream env (calls w1) agent (system_prompt agent)
    (Agent.create_rag_prompt env (Chat.question request) context_chunks)
  = Ok response ->
  (Chat.generate agent env request w).1
  = (Chat.StreamToken <$> omap delta_token (gen_values response))
    ++ match gen_failure response with
       | Some e => [Chat.StreamError (exn_str e)]
       | None =>
           [Chat.StreamSources (Chat.source_of_chunk <$> context_chunks);
            Chat.StreamDone]
       end.
Proof.
  intros Hsearch Hne Hstream. unfold Chat.generate. rewrite Hsearch.
  destruct context_chunks as [|chunk rest]; [contradiction|].
  unfold Agent.generate_response_stream. rewrite !bind_run. cbn [tick lift].
  rewrite Hstream. rewrite bind_run. cbn [lift mret M_ret].
  rewrite stream_tokens_run.
  destruct (stream_response_run response) as [-> ->].
  destruct (gen_failure response); reflexivity.
Qed.

Lemma generate_events_witness :
  (Chat.generate Example.agent Example.flaky_env
     {| Chat.question := "What is RAG?"; Chat.top_k := 2; Chat.chapter_filter := None |}
     Example.w0).1
  = [Chat.StreamToken "RAG "; Chat.StreamError "Connection reset"].
Proof.
  rewrite (generate_events Example.agent Example.flaky_env
             {| Chat.question := "What is RAG?"; Chat.top_k := 2;
                Chat.chapter_filter := None |}
             Example.w0
             (Rag.search_similar Example.flaky_env "What is RAG?" 2
                Rag.default_score_threshold None Example.w0).2
             (map Rag.format_result Example.hits)
             (Py.GYield (Some "RAG ")
                (Py.GYield (Some "") (Py.GRaise (ServiceError "Connection reset"))))
             eq_refl ltac:(discriminate) eq_refl).
  reflexivity.
Defined.

(** X13: when the search finds nothing, [generate] yields the single
    event of the error "No relevant content found" and leaves the state
    as the search left it: the chat provider is not called. *)
Theorem generate_not_found (agent : AgentService) (env : Env)
    (request : Chat.ChatRequest) (w w1 : World) :
  Rag.search_similar env (Chat.question request) (Chat.top_k request)
    Rag.default_score_threshold (Chat.chapter_filter request) w = (Ok [], w1) ->
  Chat.generate agent env request w
  = ([Chat.StreamError "No relevant content found"], w1).
Proof. intros Hsearch. unfold Chat.generate. rewrite Hsearch. reflexivity. Qed.

Lemma generate_not_found_witness :
  (Chat.generate Example.agent Example.bare_env
     {| Chat.question := "What is RAG?"; Chat.top_k := 2; Chat.chapter_filter := None |}
     Example.w0).1
  = [Chat.StreamError "No relevant content found"].
Proof.
  rewrite (generate_not_found Example.agent Example.bare_env
             {| Chat.question := "What is RAG?"; Chat.top_k := 2;
                Chat.chapter_filter := None |}
             Example.w0
             (Rag.search_similar Example.bare_env "What is RAG?" 2
                Rag.default_score_threshold None Example.w0).2 eq_refl).
  reflexivity.
Defined.

(** What [generate_response_with_metadata] returns: the answer of the
    provider to the prompt built from the chunks, and a source for each
    chunk, in their order. *)
Lemma generate_response_with_metadata_run (agent : AgentService) (env : Env)
    (question : string) (context_chunks : list ContextChunk) (w : World) :
  exists now,
  Agent.generate_response_with_metadata agent env question context_chunks w
  = match chat_completions_create env (calls w) agent (system_prompt agent)
            (Agent.create_rag_prompt env question context_chunks) with
    | Ok answer =>
        (Ok {| Agent.r_answer := answer;
               Agent.r_sources :=
                 (fun chunk =>
                    {| Agent.s_title := c_title chunk;
                       Agent.s_url := c_url chunk;
                       Agent.s_chapter := c_chapter chunk;
                       Agent.s_relevance_score := c_score chunk |}) <$> context_chunks;
               Agent.r_metadata := now answer |},
         {| qdrant := qdrant w; stdout := stdout w; calls := S (S (calls w)) |})
    | Raise e =>
        (Raise e, {| qdrant := qdrant w; stdout := stdout w; calls := S (calls w) |})
    end.
Proof.
  unfold Agent.generate_response_with_metadata, Agent.generate_response.
  eexists (fun answer => _). rewrite !bind_run. cbn [tick lift].
  destruct (chat_completions_create env (calls w) agent (system_prompt agent) _)
    as [answer|e]; [|reflexivity].
  lazy beta iota zeta delta [mbind M_bind mret M_ret utcnow tick].
  reflexivity.
Qed.

(** X14: an answer of [chat] is the answer of the chat provider to the
    prompt built from the chunks that the search returned, there is at
    least one such chunk, and the sources of the answer are the sources
    of these chunks, one for each, in their order. *)
Theorem chat_answer (agent : AgentService) (env : Env)
    (request : Chat.ChatRequest) (w w' : World) (response : Chat.ChatResponse) :
  Chat.chat agent env request w = (Ok response, w') ->
  exists (context_chunks : list ContextChunk) (w1 : World),
    Rag.search_similar env (Chat.question request) (Chat.top_k request)
      Rag.default_score_threshold (Chat.chapter_filter request) w
    = (Ok context_chunks, w1)
    /\ context_chunks <> []
    /\ chat_completions_create env (calls w1) agent (system_prompt agent)
         (Agent.create_rag_prompt env (Chat.question request) context_chunks)
       = Ok (Chat.answer response)
    /\ Chat.sources response = Chat.source_of_chunk <$> context_chunks.
Proof.
  unfold Chat.chat, try_except. rewrite bind_run.
  destruct (Rag.search_similar _ _ _ _ _ w) as [[context_chunks|e] w1];
    [|discriminate].
  destruct context_chunks as [|chunk rest]; [discriminate|].
  rewrite decide_False by discriminate. rewrite bind_run. cbn [mret M_ret].
  rewrite bind_run.
  destruct (generate_response_with_metadata_run agent env (Chat.question request)
              (chunk :: rest) w1) as [now ->].
  destruct (chat_completions_create env (calls w1) agent (system_prompt agent) _)
    as [answer|e] eqn:Hanswer; [|discriminate].
  intros [= <- <-]. exists (chunk :: rest), w1.
  split; [reflexivity|]. split; [discriminate|]. split; [exact Hanswer|].
  exact (sources_of_entries (chunk :: rest)).
Qed.

Lemma chat_answer_witness :
  exists (context_chunks : list ContextChunk) (w1 : World),
    Rag.search_similar Example.env "What is RAG?" 1 Rag.default_score_threshold None
      Example.w0
    = (Ok context_chunks, w1)
    /\ context_chunks <> []
    /\ chat_completions_create Example.env (calls w1) Example.agent
         (system_prompt Example.agent)
         (Agent.create_rag_prompt Example.env "What is RAG?" context_chunks)
       = Ok "RAG retrieves, then generates."
    /\ [ {| Chat.page_title := "Intro"; Chat.page_url := "/intro";
            Chat.section := "Chapter 1"; Chat.relevance_score := 0.875%float |} ]
       = Chat.source_of_chunk <$> context_chunks.
Proof.
  exact (chat_answer Example.agent Example.env
           {| Chat.question := "What is RAG?"; Chat.top_k := 1;
              Chat.chapter_filter := None |}
           Example.w0
           (Chat.chat Example.agent Example.env
              {| Chat.question := "What is RAG?"; Chat.top_k := 1;
                 Chat.chapter_filter := None |} Example.w0).2
           {| Chat.answer := "RAG retrieves, then generates.";
              Chat.sources :=
                [ {| Chat.page_title := "Intro"; Chat.page_url := "/intro";
                     Chat.section := "Chapter 1";
                     Chat.relevance_score := 0.875%float |} ] |}
           eq_refl).
Defined.

(** X15: whatever goes wrong in [chat], the search finding nothing
    included, leaves the route as an [HTTPException] with status 500 and
    a detail that starts with "Error processing request: ". *)
Theorem chat_raises_500_only (agent : AgentService) (env : Env)
    (request : Chat.ChatRequest) (w w' : World) (e : exn) :
  Chat.chat agent env request w = (Raise e, w') ->
  exists cause : exn,
    e = HTTPException 500 ("Error processing request: " +:+ exn_str cause).
Proof.
  unfold Chat.chat, try_except.
  destruct (_ ≫= _) as [[response|cause] w1]; [discriminate|].
  intros [= <- _]. exists cause. reflexivity.
Qed.

Lemma chat_raises_500_only_witness :
  exists cause : exn,
    HTTPException 500 "Error processing request: Connection error"
    = HTTPException 500 ("Error processing request: " +:+ exn_str cause).
Proof.
  exact (chat_raises_500_only Example.agent Example.flaky_env
           {| Chat.question := "What is RAG?"; Chat.top_k := 1;
              Chat.chapter_filter := None |}
           Example.w0
           (Chat.chat Example.agent Example.flaky_env
              {| Chat.question := "What is RAG?"; Chat.top_k := 1;
                 Chat.chapter_filter := None |} Example.w0).2
           _ eq_refl).
Defined.

(** X16: when the search finds nothing, [chat_with_selected_text] still
    asks the chat provider, with a prompt built from the selected text
    alone, and answers with the selected text as its only source; it has
    no outcome of the kind "no relevant content". *)
Theorem selected_text_alone (agent : AgentService) (env : Env)
    (question selected_text page_url answer : string) (w w1 : World) :
  Rag.search_similar env question 2 Rag.default_score_threshold None w = (Ok [], w1) ->
  chat_completions_create env (calls w1) agent (system_prompt agent)
    (Agent.create_rag_prompt env question [Chat.selected_context selected_text page_url])
  = Ok answer ->
  (Chat.chat_with_selected_text agent env question selected_text page_url w).1
  = Ok {| Chat.answer := answer;
          Chat.sources :=
            [ {| Chat.page_title := "Selected Text";
                 Chat.page_url := page_url;
                 Chat.section := "User Selection";
                 Chat.relevance_score := 1%float |} ] |}.
Proof.
  intros Hsearch Hanswer. unfold Chat.chat_with_selected_text, try_except.
  rewrite (bind_Ok_run _ _ _ _ _ Hsearch). rewrite bind_run.
  destruct (generate_response_with_metadata_run agent env question
              (Chat.all_context selected_text page_url []) w1) as [now ->].
  unfold Chat.all_context. cbn [app]. rewrite Hanswer. reflexivity.
Qed.

Lemma selected_text_alone_witness :
  (Chat.chat_with_selected_text Example.agent Example.bare_env
     "What does this mean?" "retrieval augmented" "/chapter-1/what-is-rag" Example.w0).1
  = Ok {| Chat.answer := "RAG retrieves, then generates.";
          Chat.sources :=
            [ {| Chat.page_title := "Selected Text";
                 Chat.page_url := "/chapter-1/what-is-rag";
                 Chat.section := "User Selection";
                 Chat.relevance_score := 1%float |} ] |}.
Proof.
  exact (selected_text_alone Example.agent Example.bare_env
           "What does this mean?" "retrieval augmented" "/chapter-1/what-is-rag"
           "RAG retrieves, then generates." Example.w0
           (Rag.search_similar Example.bare_env "What does this mean?" 2
              Rag.default_score_threshold None Example.w0).2
           eq_refl eq_refl).
Defined.

End ChatMore.

(** ** Computations that do not read the standard output *)

Section Respects.

Context {A B : Type}.

Lemma same_store_refl (w : World) : same_store w w.
Proof. split; reflexivity. Qed.

Lemma same_store_printed (lines lines' : list line) (w v : World) :
  same_store w v -> same_store (printed lines w) (printed lines' v).
Proof. intros [Hq Hc]. split; assumption. Qed.

Lemma respects_ret (a : A) : respects (mret a : M A).
Proof. intros w v H. split; [reflexivity | exact H]. Qed.

Lemma respects_lift (r : result A) : respects (lift r).
Proof. intros w v H. split; [reflexivity | exact H]. Qed.

Lemma respects_raise (e : exn) : respects (raise e : M A).
Proof. intros w v H. split; [reflexivity | exact H]. Qed.

Lemma respects_bind (m : M A) (f : A -> M B) :
  respects m -> (forall a, respects (f a)) -> respects (m ≫= f).
Proof.
  intros Hm Hf w v H. rewrite !bind_run. destruct (Hm w v H) as [Hr Hs].
  destruct (m w) as [[a|e] w'], (m v) as [[a'|e'] v']; cbn in Hr, Hs;
    try discriminate; injection Hr as <-.
  - apply Hf. exact Hs.
  - split; [reflexivity | exact Hs].
Qed.

Lemma respects_try_except (body : M A) (handler : exn -> M A) :
  respects body -> (forall e, respects (handler e)) -> respects (try_except body handler).
Proof.
  intros Hm Hh w v H. unfold try_except. destruct (Hm w v H) as [Hr Hs].
  destruct (body w) as [[a|e] w'], (body v) as [[a'|e'] v']; cbn in Hr, Hs;
    try discriminate; injection Hr as <-.
  - split; [reflexivity | exact Hs].
  - apply Hh. exact Hs.
Qed.

Lemma quiet_ret (a : A) : quiet (mret a : M A).
Proof. intros w. reflexivity. Qed.

Lemma quiet_lift (r : result A) : quiet (lift r).
Proof. intros w. reflexivity. Qed.

Lemma quiet_bind (m : M A) (f : A -> M B) :
  quiet m -> (forall a, quiet (f a)) -> quiet (m ≫= f).
Proof.
  intros Hm Hf w. rewrite bind_run. specialize (Hm w).
  destruct (m w) as [[a|e] w']; cbn in Hm; [|exact Hm].
  rewrite Hf. exact Hm.
Qed.

Lemma quiet_try_except (body : M A) (handler : exn -> M A) :
  quiet body -> (forall e, quiet (handler e)) -> quiet (try_except body handler).
Proof.
  intros Hm Hh w. unfold try_except. specialize (Hm w).
  destruct (body w) as [[a|e] w']; cbn in Hm; [exact Hm|].
  rewrite Hh. exact Hm.
Qed.

End Respects.

Section RespectsSteps.

Lemma respects_print (l : line) : respects (print l).
Proof. intros w v [Hq Hc]. split; [reflexivity | split; assumption]. Qed.

Lemma quiet_print (l : line) : is_error_line l = false -> quiet (print l).
Proof.
  intros Hl w. unfold error_lines. cbn. rewrite filter_app, filter_cons, filter_nil.
  rewrite decide_False by (rewrite Hl; discriminate). apply app_nil_r.
Qed.

Lemma respects_tick : respects tick.
Proof.
  intros w v [Hq Hc]. cbn. split; [congruence | split; cbn; congruence].
Qed.

Lemma quiet_tick : quiet tick.
Proof. intros w. reflexivity. Qed.

Lemma respects_get_collection (collection_name : string) :
  respects (Qdrant.get_collection collection_name).
Proof.
  intros w v [Hq Hc]. unfold Qdrant.get_collection. rewrite Hq.
  destruct (qdrant v !! collection_name); (split; [reflexivity | split; assumption]).
Qed.

Lemma quiet_get_collection (collection_name : string) :
  quiet (Qdrant.get_collection collection_name).
Proof.
  intros w. unfold Qdrant.get_collection.
  destruct (qdrant w !! collection_name); reflexivity.
Qed.

Lemma respects_put_collection (collection_name : string) (c : gmap string PointStruct) :
  respects (Qdrant.put_collection collection_name c).
Proof.
  intros w v [Hq Hc]. split; [reflexivity|]. split; cbn; congruence.
Qed.

Lemma quiet_put_collection (collection_name : string) (c : gmap string PointStruct) :
  quiet (Qdrant.put_collection collection_name c).
Proof. intros w. reflexivity. Qed.

Lemma respects_ensure_collection_exists : respects Rag.ensure_collection_exists.
Proof.
  apply respects_try_except.
  - apply respects_bind; [apply respects_get_collection | intros; apply respects_ret].
  - intros e. apply respects_bind; [apply respects_put_collection|].
    intros _. apply respects_print.
Qed.

Lemma quiet_ensure_collection_exists : quiet Rag.ensure_collection_exists.
Proof.
  apply quiet_try_except.
  - apply quiet_bind; [apply quiet_get_collection | intros; apply quiet_ret].
  - intros e. apply quiet_bind; [apply quiet_put_collection|].
    intros _. apply quiet_print. reflexivity.
Qed.

Lemma respects_index_points (env : Env) (doc_id title url : string)
    (chapter : option string) (chunks : list string) :
  forall (i : Z) (points : list PointStruct),
    respects (Rag.index_points env doc_id title url chapter i chunks points).
Proof.
  induction chunks as [|chunk chunks IH]; intros i points; [apply respects_ret|].
  cbn [Rag.index_points].
  apply respects_bind.
  { apply respects_bind; [apply respects_tick | intros; apply respects_lift]. }
  intros embedding. apply respects_bind.
  { apply respects_bind; [apply respects_tick | intros; apply respects_ret]. }
  intros now. apply IH.
Qed.

Lemma quiet_index_points (env : Env) (doc_id title url : string)
    (chapter : option string) (chunks : list string) :
  forall (i : Z) (points : list PointStruct),
    quiet (Rag.index_points env doc_id title url chapter i chunks points).
Proof.
  induction chunks as [|chunk chunks IH]; intros i points; [apply quiet_ret|].
  cbn [Rag.index_points].
  apply quiet_bind.
  { apply quiet_bind; [apply quiet_tick | intros; apply quiet_lift]. }
  intros embedding. apply quiet_bind.
  { apply quiet_bind; [apply quiet_tick | intros; apply quiet_ret]. }
  intros now. apply IH.
Qed.

(** The result of [index_document] and what it stores do not depend on
    what was printed before. *)
Lemma respects_index_document (env : Env) (doc_id title content url : string)
    (chapter : option string) :
  respects (Rag.index_document env doc_id title content url chapter).
Proof.
  unfold Rag.index_document.
  apply respects_bind; [apply respects_ensure_collection_exists|]. intros _.
  apply respects_bind; [apply respects_lift|]. intros chunks.
  apply respects_bind; [apply respects_index_points|]. intros points.
  apply respects_bind; [|intros; apply respects_ret].
  apply respects_bind; [apply respects_get_collection|].
  intros c. apply respects_put_collection.
Qed.

(** [index_document] prints no error line. *)
Lemma quiet_index_document (env : Env) (doc_id title content url : string)
    (chapter : option string) :
  quiet (Rag.index_document env doc_id title content url chapter).
Proof.
  unfold Rag.index_document.
  apply quiet_bind; [apply quiet_ensure_collection_exists|]. intros _.
  apply quiet_bind; [apply quiet_lift|]. intros chunks.
  apply quiet_bind; [apply quiet_index_points|]. intros points.
  apply quiet_bind; [|intros; apply quiet_ret].
  apply quiet_bind; [apply quiet_get_collection|].
  intros c. apply quiet_put_collection.
Qed.

Lemma quiet_index_file (env : Env) (md_file : MdFile) :
  quiet (Admin.index_file env md_file).
Proof.
  unfold Admin.index_file.
  apply quiet_bind; [apply quiet_lift|]. intros content. apply quiet_index_document.
Qed.

End RespectsSteps.

(** ** More on the two indexers *)

Section IndexersMore.

Lemma chunks_total_app (l k : list Admin.IndexedFile) :
  chunks_total (l ++ k) = chunks_total l + chunks_total k.
Proof.
  unfold chunks_total. induction l as [|entry l IH]; cbn; [reflexivity|].
  rewrite IH. lia.
Qed.

Lemma error_lines_printed_error (md_file e : string) (w : World) :
  error_lines (printed [ErrorIndexing md_file e] w)
  = error_lines w ++ [ErrorIndexing md_file e].
Proof. unfold error_lines. cbn. rewrite filter_app. reflexivity. Qed.

(** The loop of the route accounts for every file: it is either added to
    [indexed_files], with its chunks added to the total, or reported by
    one error line. *)
Lemma perform_indexing_loop_accounts (env : Env) (md_files : list MdFile) :
  forall (total_chunks : Z) (indexed_files : list Admin.IndexedFile) (w : World),
  exists (new : list Admin.IndexedFile) (w' : World),
    Admin.perform_indexing_loop env md_files total_chunks indexed_files w
    = (Ok (total_chunks + chunks_total new, indexed_files ++ new), w')
    /\ (Admin.file <$> new) `sublist_of` (name <$> md_files)
    /\ (length (error_lines w') + length new
        = length (error_lines w) + length md_files)%nat.
Proof.
  induction md_files as [|md_file rest IH]; intros total_chunks indexed_files w.
  - exists [], w. cbn. rewrite Z.add_0_r, app_nil_r.
    split; [reflexivity|]. split; [constructor | lia].
  - pose proof (quiet_index_file env md_file w) as Hquiet.
    destruct (Admin.index_file env md_file w) as [[n|e] w1] eqn:Hfile; cbn in Hquiet.
    + rewrite (perform_indexing_loop_indexed _ _ _ _ _ _ _ _ Hfile).
      destruct (IH (total_chunks + n)
                  (indexed_files ++ [{| Admin.file := name md_file; Admin.chunks := n |}])
                  w1) as (new & w' & -> & Hsub & Hlen).
      exists ({| Admin.file := name md_file; Admin.chunks := n |} :: new), w'.
      split; [|split].
      * replace (total_chunks
                 + chunks_total ({| Admin.file := name md_file; Admin.chunks := n |} :: new))
          with (total_chunks + n + chunks_total new)
          by (unfold chunks_total; cbn [foldr Admin.chunks]; lia).
        rewrite <- app_assoc. reflexivity.
      * cbn. apply sublist_skip. exact Hsub.
      * cbn. rewrite Hquiet in Hlen. lia.
    + rewrite (perform_indexing_loop_failed _ _ _ _ _ _ _ _ Hfile).
      destruct (IH total_chunks indexed_files
                  {| qdrant := qdrant w1;
                     stdout := stdout w1 ++ [ErrorIndexing (path md_file) (exn_str e)];
                     calls := calls w1 |}) as (new & w' & -> & Hsub & Hlen).
      exists new, w'. split; [reflexivity|]. split.
      * cbn. apply sublist_cons. exact Hsub.
      * change {| qdrant := qdrant w1;
                  stdout := stdout w1 ++ [ErrorIndexing (path md_file) (exn_str e)];
                  calls := calls w1 |}
          with (printed [ErrorIndexing (path md_file) (exn_str e)] w1) in Hlen.
        rewrite error_lines_printed_error, length_app, Hquiet in Hlen. cbn in *. lia.
Qed.

(** X17: [perform_indexing] never raises and accounts for every file
    found: the files of [indexed_files] are among the files found, in
    their order, the total is the sum of their chunk counts, and each of
    the other files has made the route print one error line. *)
Theorem perform_indexing_accounts (env : Env) (md_files : list MdFile) (w : World) :
  exists (total_chunks : Z) (indexed_files : list Admin.IndexedFile) (w' : World),
    Admin.perform_indexing env md_files w = (Ok (total_chunks, indexed_files), w')
    /\ total_chunks = chunks_total indexed_files
    /\ (Admin.file <$> indexed_files) `sublist_of` (name <$> md_files)
    /\ (length (error_lines w') + length indexed_files
        = length (error_lines w) + length md_files)%nat.
Proof.
  destruct (perform_indexing_loop_accounts env md_files 0 [] w)
    as (new & w' & Hrun & Hsub & Hlen).
  exists (chunks_total new), new, w'. unfold Admin.perform_indexing.
  rewrite Hrun. auto.
Qed.

(** X18: over a path that exists, [reindex_content] in the foreground
    never fails, whatever happens to the files: it returns a report
    "completed" whose [indexed_count] is the number of the entries of
    [details], at most the number of files found. *)
Theorem reindex_content_foreground (env : Env) (request : Admin.ReindexRequest)
    (md_files : list MdFile) (w : World) :
  rglob_md env
    match Admin.docs_path request with
    | Some p => if decide (p = "") then "../book/docs" else p
    | None => "../book/docs"
    end = Some md_files ->
  Admin.background request = false ->
  exists (response : Admin.ReindexResponse) (indexed_files : list Admin.IndexedFile)
         (w' : World),
    Admin.reindex_content env request w = (Ok (response, None), w')
    /\ Admin.status response = "completed"
    /\ Admin.details response = Some indexed_files
    /\ Admin.indexed_count response = Py.len indexed_files
    /\ Py.len indexed_files <= Py.len md_files.
Proof.
  intros Hfiles Hfg. unfold Admin.reindex_content, try_except.
  rewrite Hfiles, Hfg. rewrite bind_run.
  destruct (perform_indexing_loop_accounts env md_files 0 [] w)
    as (new & w' & Hrun & Hsub & _).
  unfold Admin.perform_indexing. rewrite Hrun. cbn.
  eexists _, new, w'. split; [reflexivity|]. cbn.
  repeat split. apply sublist_length in Hsub. rewrite !length_fmap in Hsub.
  unfold Py.len. lia.
Qed.

Lemma reindex_content_foreground_witness :
  exists (response : Admin.ReindexResponse) (indexed_files : list Admin.IndexedFile)
         (w' : World),
    Admin.reindex_content Example.env
      {| Admin.docs_path := Some ""; Admin.background := false |} Example.w0
    = (Ok (response, None), w')
    /\ Admin.status response = "completed"
    /\ Admin.details response = Some indexed_files
    /\ Admin.indexed_count response = Py.len indexed_files
    /\ Py.len indexed_files <= Py.len Example.files.
Proof.
  apply (reindex_content_foreground Example.env
           {| Admin.docs_path := Some ""; Admin.background := false |}
           Example.files Example.w0); reflexivity.
Defined.

(** X19: over a path that does not exist, [reindex_content] raises the
    [HTTPException] with status 404 inside its [try], and its own
    [except Exception] turns it into one with status 500; nothing is
    indexed and the state is as before. *)
Theorem reindex_content_missing_path (env : Env) (request : Admin.ReindexRequest)
    (w : World) :
  rglob_md env
    match Admin.docs_path request with
    | Some p => if decide (p = "") then "../book/docs" else p
    | None => "../book/docs"
    end = None ->
  exists book_docs_path : string,
    Admin.reindex_content env request w
    = (Raise (HTTPException 500
                ("Error during re-indexing: 404: Documentation path not found: "
                 +:+ book_docs_path)),
       w).
Proof.
  intros Hmissing. unfold Admin.reindex_content, try_except. rewrite Hmissing.
  eexists. reflexivity.
Qed.

Lemma reindex_content_missing_path_witness :
  exists book_docs_path : string,
    Admin.reindex_content Example.env
      {| Admin.docs_path := Some "/srv/docs"; Admin.background := true |} Example.w0
    = (Raise (HTTPException 500
                ("Error during re-indexing: 404: Documentation path not found: "
                 +:+ book_docs_path)),
       Example.w0).
Proof.
  apply (reindex_content_missing_path Example.env
           {| Admin.docs_path := Some "/srv/docs"; Admin.background := true |}
           Example.w0).
  reflexivity.
Defined.


(** X21: the route [get_collection_stats] never fails and changes
    nothing.  When the collection of the book does not exist it still
    answers with the status "success"; the data then hold the error and
    a count of 0. *)
Theorem get_collection_stats_always_success (w : World) :
  exists stats : Rag.Stats,
    Admin.get_collection_stats w
    = (Ok {| Admin.stats_status := "success"; Admin.stats_data := stats |}, w)
    /\ (qdrant w !! Rag.collection_name = None ->
        exists error, stats = Rag.StatsError error 0)
    /\ (is_Some (qdrant w !! Rag.collection_name) ->
        exists v i p, stats = Rag.CollectionInfo v i p).
Proof.
  unfold Admin.get_collection_stats, Rag.get_collection_stats, try_except.
  rewrite !bind_run. unfold Qdrant.get_collection.
  destruct (qdrant w !! Rag.collection_name) as [c|]; cbn.
  - eexists. split; [reflexivity|]. split; [discriminate | eauto].
  - eexists. split; [reflexivity|]. split; [eauto|]. intros [c Hc]. discriminate.
Qed.

End IndexersMore.

(** ** The script and the route, side by side *)

Section ScriptAndRoute.

(** A file of the script that cannot be read is reported and skipped. *)
Lemma index_loop_unreadable (env : Env) (md_file : MdFile) (e : exn)
    (rest : list MdFile) (total_chunks indexed_files : Z) (w : World) :
  read md_file = Raise e ->
  Script.index_loop env (md_file :: rest) total_chunks indexed_files w
  = Script.index_loop env rest total_chunks indexed_files
      (printed [Processing (name md_file); Error (exn_str e)] w).
Proof.
  intros Hread. cbn [Script.index_loop]. rewrite bind_run. unfold try_except.
  rewrite bind_run. cbn [print]. rewrite bind_run. unfold lift at 1. rewrite Hread.
  rewrite bind_run. cbn. unfold printed. cbn. rewrite <- app_assoc. reflexivity.
Qed.

(** A file of the script that is read and is not short is passed to
    [index_document]. *)
Lemma index_loop_not_short (env : Env) (md_file : MdFile) (content : string)
    (rest : list MdFile) (total_chunks indexed_files : Z) (w : World) :
  read md_file = Ok content ->
  100 <= Py.slen (Py.strip content) ->
  Script.index_loop env (md_file :: rest) total_chunks indexed_files w
  = match Rag.index_document env (stem md_file) (Meta.title_of md_file) content
            ("/" +:+ Meta.url_path_of md_file) (Some (Meta.chapter_of md_file))
            (printed [Processing (name md_file)] w) with
    | (Ok chunks_indexed, w1) =>
        Script.index_loop env rest (total_chunks + chunks_indexed) (indexed_files + 1)
          (printed [Indexed chunks_indexed] w1)
    | (Raise e, w1) =>
        Script.index_loop env rest total_chunks indexed_files
          (printed [Error (exn_str e)] w1)
    end.
Proof.
  intros Hread Hlong. apply Z.ltb_ge in Hlong.
  cbn [Script.index_loop]. rewrite bind_run. unfold try_except.
  rewrite bind_run. cbn [print]. rewrite bind_run. unfold lift at 1.
  rewrite Hread, Hlong. rewrite bind_run. fold (printed [Processing (name md_file)] w).
  destruct (Rag.index_document env _ _ _ _ _ _) as [[chunks_indexed|e] w1];
    [rewrite bind_run|]; reflexivity.
Qed.

(** On files none of which is short, the two loops index the same
    files, with the same counts, into the same store. *)
Lemma loops_agree (env : Env) (md_files : list MdFile) :
  Forall not_short md_files ->
  forall (total_chunks indexed_count : Z) (indexed_files : list Admin.IndexedFile)
         (w v : World),
    same_store w v ->
    exists (new : list Admin.IndexedFile) (w' v' : World),
      Script.index_loop env md_files total_chunks indexed_count w
      = (Ok (total_chunks + chunks_total new, indexed_count + Py.len new), w')
      /\ Admin.perform_indexing_loop env md_files total_chunks indexed_files v
         = (Ok (total_chunks + chunks_total new, indexed_files ++ new), v')
      /\ same_store w' v'.
Proof.
  induction 1 as [|md_file rest Hlong _ IH];
    intros total_chunks indexed_count indexed_files w v Hsame.
  - exists [], w, v. cbn. rewrite !Z.add_0_r, app_nil_r. auto.
  - destruct (read md_file) as [content|e] eqn:Hread.
    + rewrite (index_loop_not_short _ _ content _ _ _ _ Hread (Hlong content Hread)).
      pose proof (respects_index_document env (stem md_file) (Meta.title_of md_file)
                    content ("/" +:+ Meta.url_path_of md_file)
                    (Some (Meta.chapter_of md_file))
                    (printed [Processing (name md_file)] w) v
                    (same_store_printed [_] [] w v Hsame)) as [Hr Hs].
      assert (Admin.index_file env md_file v
              = Rag.index_document env (stem md_file) (Meta.title_of md_file) content
                  ("/" +:+ Meta.url_path_of md_file) (Some (Meta.chapter_of md_file)) v)
        as Hfile.
      { unfold Admin.index_file, lift. rewrite bind_run, Hread. reflexivity. }
      destruct (Rag.index_document env _ _ _ _ _ v) as [[n|e] v1] eqn:Hv;
        destruct (Rag.index_document env _ _ _ _ _ (printed _ w)) as [[n'|e'] w1];
        cbn in Hr, Hs; try discriminate.
      * injection Hr as ->.
        rewrite (perform_indexing_loop_indexed _ _ _ _ _ _ _ _ Hfile).
        destruct (IH (total_chunks + n) (indexed_count + 1)
                    (indexed_files ++ [{| Admin.file := name md_file; Admin.chunks := n |}])
                    (printed [Indexed n] w1) v1
                    (same_store_printed [_] [] w1 v1 Hs))
          as (new & w' & v' & -> & -> & Hs').
        exists ({| Admin.file := name md_file; Admin.chunks := n |} :: new), w', v'.
        replace (chunks_total ({| Admin.file := name md_file; Admin.chunks := n |} :: new))
          with (n + chunks_total new) by reflexivity.
        rewrite <- app_assoc. unfold Py.len. cbn [length app].
        repeat split; try apply Hs'; do 3 f_equal; lia.
      * injection Hr as ->.
        rewrite (perform_indexing_loop_failed _ _ _ _ _ _ _ _ Hfile).
        destruct (IH total_chunks indexed_count indexed_files
                    (printed [Error (exn_str e)] w1)
                    (printed [ErrorIndexing (path md_file) (exn_str e)] v1)
                    (same_store_printed [_] [_] w1 v1 Hs))
          as (new & w' & v' & -> & Hroute & Hs').
        exists new, w', v'. split; [reflexivity|]. split; [exact Hroute | exact Hs'].
    + rewrite (index_loop_unreadable _ _ e _ _ _ _ Hread).
      assert (Admin.index_file env md_file v = (Raise e, v)) as Hfile.
      { unfold Admin.index_file, lift. rewrite bind_run, Hread. reflexivity. }
      rewrite (perform_indexing_loop_failed _ _ _ _ _ _ _ _ Hfile).
      destruct (IH total_chunks indexed_count indexed_files
                  (printed [Processing (name md_file); Error (exn_str e)] w)
                  (printed [ErrorIndexing (path md_file) (exn_str e)] v)
                  (same_store_printed [_; _] [_] w v Hsame))
        as (new & w' & v' & -> & Hroute & Hs').
      exists new, w', v'. split; [reflexivity|]. split; [exact Hroute | exact Hs'].
Qed.

(** X22: over files none of which is short (each has at least 100
    characters once stripped, or cannot be read), the loop of the script
    and [perform_indexing] of the route do the same work from the same
    state: the same total of chunks, as many files indexed, and the same
    collections in the end. *)
Theorem script_and_route_agree (env : Env) (md_files : list MdFile) (w : World) :
  Forall not_short md_files ->
  exists (total_chunks : Z) (indexed_files : list Admin.IndexedFile) (w1 w2 : World),
    Script.index_loop env md_files 0 0 w = (Ok (total_chunks, Py.len indexed_files), w1)
    /\ Admin.perform_indexing env md_files w = (Ok (total_chunks, indexed_files), w2)
    /\ qdrant w1 = qdrant w2.
Proof.
  intros Hlong.
  destruct (loops_agree env md_files Hlong 0 0 [] w w (same_store_refl w))
    as (new & w1 & w2 & Hscript & Hroute & Hq & _).
  exists (chunks_total new), new, w1, w2. unfold Admin.perform_indexing.
  rewrite Hscript, Hroute. auto.
Qed.

Lemma script_and_route_agree_witness :
  exists (total_chunks : Z) (indexed_files : list Admin.IndexedFile) (w1 w2 : World),
    Script.index_loop Example.env
      [Example.md "chapter-1" "long" (Ok (Example.text_of_words 600));
       Example.md "chapter-1" "broken" (Raise (OSError "Permission denied"))]
      0 0 Example.w0
    = (Ok (total_chunks, Py.len indexed_files), w1)
    /\ Admin.perform_indexing Example.env
         [Example.md "chapter-1" "long" (Ok (Example.text_of_words 600));
          Example.md "chapter-1" "broken" (Raise (OSError "Permission denied"))]
         Example.w0
       = (Ok (total_chunks, indexed_files), w2)
    /\ qdrant w1 = qdrant w2.
Proof.
  apply (script_and_route_agree Example.env
           [Example.md "chapter-1" "long" (Ok (Example.text_of_words 600));
            Example.md "chapter-1" "broken" (Raise (OSError "Permission denied"))]
           Example.w0).
  repeat constructor.
  - intros content [= <-]. vm_compute. congruence.
  - intros content H. discriminate.
Defined.

(** X23: a file whose content is whitespace only is counted by the route
    as indexed, with 0 chunks; the embedding provider is not asked and
    the points are as before. *)
Theorem route_counts_blank_file (env : Env) (md_file : MdFile) (content : string)
    (rest : list MdFile) (total_chunks : Z) (indexed_files : list Admin.IndexedFile)
    (w : World) :
  read md_file = Ok content ->
  blank content ->
  exists w' : World,
    Admin.perform_indexing_loop env (md_file :: rest) total_chunks indexed_files w
    = Admin.perform_indexing_loop env rest total_chunks
        (indexed_files ++ [{| Admin.file := name md_file; Admin.chunks := 0 |}]) w'
    /\ book_points w' = book_points w
    /\ calls w' = calls w.
Proof.
  intros Hread Hblank.
  destruct (index_document_blank_run env (stem md_file) (Meta.title_of md_file) content
              ("/" +:+ Meta.url_path_of md_file) (Some (Meta.chapter_of md_file)) w Hblank)
    as (w' & Hdoc & Hpoints & Hcalls).
  exists w'. split; [|split; assumption].
  rewrite <- (Z.add_0_r total_chunks) at 2.
  apply perform_indexing_loop_indexed.
  unfold Admin.index_file, lift. rewrite bind_run, Hread. exact Hdoc.
Qed.

Lemma route_counts_blank_file_witness :
  (Admin.perform_indexing Example.env [Example.md "drafts" "todo" (Ok "
")] Example.w0).1
  = Ok (0, [{| Admin.file := "todo.md"; Admin.chunks := 0 |}]).
Proof.
  destruct (route_counts_blank_file Example.env (Example.md "drafts" "todo" (Ok "
")) "
" [] 0 [] Example.w0 eq_refl) as (w' & Hrun & _); [cbn; auto|].
  unfold Admin.perform_indexing. rewrite Hrun. reflexivity.
Defined.



End ScriptAndRoute.

Section ScriptMore.



End ScriptMore.
